(** * Dark Trace Detector: a shallow embedding of [dark_trace_detector.py]

    The script asks a block explorer for the transactions of a wallet and
    flags the calls made to contracts that are unverified and young.  The
    embedding follows the three functions of the script:
    [fetch_transactions], [fetch_contract_info] and
    [detect_suspicious_contracts].

    - Values coming out of [response.json()] are JSON values ([json]).
    - Python exceptions are results in [exn + A]; nothing in the script
      catches one, so the first exception ends the run.
    - The explorer is an oracle that answers a request knowing the requests
      made before it; every request is appended to a log, so that "no lookup
      is performed" is a statement about the log. *)

From Stdlib Require Import ZArith String Ascii List Bool Lia.
From stdpp Require Import base list.

Set Warnings "-register-all".

Local Open Scope string_scope.
Local Open Scope Z_scope.

(** ** Values *)

(** What [response.json()] yields.  Strings are sequences of code points
    below 256; numbers are the integers (the explorer sends every quantity
    as a string, and the script never computes with a JSON number). *)
Inductive json : Type :=
| JNull
| JBool (b : bool)
| JNum (n : Z)
| JStr (s : string)
| JArr (items : list json)
| JObj (fields : list (string * json)).

(** The exception classes the script can meet. *)
Inductive exn : Type :=
| KeyError
| IndexError
| TypeError
| AttributeError
| ValueError
| RequestException
| JSONDecodeError.

(** A [dict] with string keys: the first binding of a key is the live one. *)
Fixpoint dict_get (k : string) (d : list (string * json)) : option json :=
  match d with
  | [] => None
  | (k', v) :: d' => if String.eqb k k' then Some v else dict_get k d'
  end.

(** Python truth value, as tested by [not v]. *)
Definition truthy (v : json) : bool :=
  match v with
  | JNull => false
  | JBool b => b
  | JNum n => negb (n =? 0)
  | JStr s => negb (String.eqb s "")
  | JArr l => match l with [] => false | _ :: _ => true end
  | JObj d => match d with [] => false | _ :: _ => true end
  end.

(** [v == lit] for a string literal [lit]. *)
Definition eq_str (v : json) (lit : string) : bool :=
  match v with
  | JStr s => String.eqb s lit
  | _ => false
  end.

(** [v[k]] for a string key [k]. *)
Definition subscript (v : json) (k : string) : exn + json :=
  match v with
  | JObj d => match dict_get k d with Some x => inr x | None => inl KeyError end
  | _ => inl TypeError
  end.

(** [v.get(k, default)]: only a [dict] has the method. *)
Definition get (v : json) (k : string) (default : json) : exn + json :=
  match v with
  | JObj d => inr (match dict_get k d with Some x => x | None => default end)
  | _ => inl AttributeError
  end.

(** [v[0]]. A JSON object has string keys only, so [0] is never one. *)
Definition subscript0 (v : json) : exn + json :=
  match v with
  | JArr [] => inl IndexError
  | JArr (x :: _) => inr x
  | JStr EmptyString => inl IndexError
  | JStr (String c _) => inr (JStr (String c EmptyString))
  | JObj _ => inl KeyError
  | _ => inl TypeError
  end.

Fixpoint str_take (n : nat) (s : string) : string :=
  match n, s with
  | S n', String c s' => String c (str_take n' s')
  | _, _ => EmptyString
  end.

(** [v[:n]]. Slicing a [dict] is a [TypeError] (unhashable slice). *)
Definition slice_to (n : nat) (v : json) : exn + json :=
  match v with
  | JStr s => inr (JStr (str_take n s))
  | JArr l => inr (JArr (take n l))
  | _ => inl TypeError
  end.

(** ** [str.strip()] *)

Definition code (c : ascii) : Z := Z.of_N (N_of_ascii c).

(** [str.isspace] on the code points below 256: tab to carriage return,
    the four separators 28..31, space, NEL and the no-break space. *)
Definition is_space (c : ascii) : bool :=
  let n := code c in
  ((9 <=? n) && (n <=? 13)) || ((28 <=? n) && (n <=? 32))
  || (n =? 133) || (n =? 160).

Fixpoint lstrip (s : string) : string :=
  match s with
  | EmptyString => EmptyString
  | String c s' => if is_space c then lstrip s' else s
  end.

Fixpoint rstrip (s : string) : string :=
  match s with
  | EmptyString => EmptyString
  | String c s' =>
      match rstrip s' with
      | EmptyString => if is_space c then EmptyString else String c EmptyString
      | r => String c r
      end
  end.

Definition str_strip (s : string) : string := rstrip (lstrip s).

(** [v.strip()]: only a [str] has the method. *)
Definition strip (v : json) : exn + json :=
  match v with
  | JStr s => inr (JStr (str_strip s))
  | _ => inl AttributeError
  end.

(** ** Dates: the part of [datetime] the script uses *)

Record datetime : Type := mk_datetime {
  year : Z; month : Z; day : Z;
  hour : Z; minute : Z; second : Z; microsecond : Z
}.

Record timedelta : Type := mk_timedelta {
  days : Z; seconds : Z; microseconds : Z
}.

Definition is_leap (y : Z) : bool :=
  (y mod 4 =? 0) && (negb (y mod 100 =? 0) || (y mod 400 =? 0)).

Definition days_before_year (y : Z) : Z :=
  let y1 := y - 1 in y1 * 365 + y1 / 4 - y1 / 100 + y1 / 400.

Definition days_in_month (y m : Z) : Z :=
  if (m =? 2) && is_leap y then 29
  else nth (Z.to_nat m) [-1; 31; 28; 31; 30; 31; 30; 31; 31; 30; 31; 30; 31] (-1).

Definition days_before_month (y m : Z) : Z :=
  nth (Z.to_nat m) [-1; 0; 31; 59; 90; 120; 151; 181; 212; 243; 273; 304; 334] (-1)
  + (if (2 <? m) && is_leap y then 1 else 0).

Definition ymd2ord (y m d : Z) : Z :=
  days_before_year y + days_before_month y m + d.

Definition toordinal (t : datetime) : Z := ymd2ord (year t) (month t) (day t).

(** The [timedelta] constructor carries microseconds into seconds and
    seconds into days, both with floor division. *)
Definition timedelta_new (d s us : Z) : timedelta :=
  let s1 := s + us / 1000000 in
  {| days := d + s1 / 86400;
     seconds := s1 mod 86400;
     microseconds := us mod 1000000 |}.

(** [a - b] on two naive datetimes. *)
Definition datetime_sub (a b : datetime) : timedelta :=
  let secs1 := second a + minute a * 60 + hour a * 3600 in
  let secs2 := second b + minute b * 60 + hour b * 3600 in
  timedelta_new (toordinal a - toordinal b) (secs1 - secs2)
                (microsecond a - microsecond b).

(** The fields of a [datetime] object are always in these ranges. *)
Definition valid_date (y m d : Z) : bool :=
  (1 <=? y) && (y <=? 9999) && (1 <=? m) && (m <=? 12)
  && (1 <=? d) && (d <=? days_in_month y m).

Definition valid_datetime (t : datetime) : bool :=
  valid_date (year t) (month t) (day t)
  && (0 <=? hour t) && (hour t <? 24)
  && (0 <=? minute t) && (minute t <? 60)
  && (0 <=? second t) && (second t <? 60)
  && (0 <=? microsecond t) && (microsecond t <? 1000000).

(** ** [datetime.strptime(s, "%Y-%m-%d")]

    The format is compiled to the regular expression
    [(\d\d\d\d)-(1[0-2]|0[1-9]|[1-9])-(3[0-1]|[1-2]\d|0[1-9]|[1-9]| [1-9])],
    matched at the start of the string, alternatives tried in order; text
    left after the match is an error, and so is a date that does not exist.

    Scope: on the strings of this file, of code points below 256, [\d]
    matches the ten characters 0 to 9 and nothing else.  The regular
    expression also takes the decimal digits of other scripts for [\d];
    they lie beyond code point 255 and no string here holds one. *)

Definition is_digit (c : ascii) : bool := (48 <=? code c) && (code c <=? 57).
Definition digit (c : ascii) : Z := code c - 48.
Definition in_range (lo hi : Z) (c : ascii) : bool :=
  is_digit c && (lo <=? digit c) && (digit c <=? hi).

Definition dash : ascii := ascii_of_nat 45.
Definition blank : ascii := ascii_of_nat 32.

(** One regex group: every way it matches a prefix, best first, each with
    the number read and the text that follows. *)
Definition re_Y (s : string) : list (Z * string) :=
  match s with
  | String a (String b (String c (String d r))) =>
      if is_digit a && is_digit b && is_digit c && is_digit d
      then [(digit a * 1000 + digit b * 100 + digit c * 10 + digit d, r)]
      else []
  | _ => []
  end.

Definition two (p : ascii -> ascii -> bool) (s : string) : list (Z * string) :=
  match s with
  | String a (String b r) =>
      if p a b then [((if is_digit a then digit a * 10 else 0) + digit b, r)]
      else []
  | _ => []
  end.

Definition one (p : ascii -> bool) (s : string) : list (Z * string) :=
  match s with
  | String a r => if p a then [(digit a, r)] else []
  | _ => []
  end.

Definition re_m (s : string) : list (Z * string) :=
  two (fun a b => in_range 1 1 a && in_range 0 2 b) s
  ++ two (fun a b => in_range 0 0 a && in_range 1 9 b) s
  ++ one (in_range 1 9) s.

Definition re_d (s : string) : list (Z * string) :=
  two (fun a b => in_range 3 3 a && in_range 0 1 b) s
  ++ two (fun a b => in_range 1 2 a && is_digit b) s
  ++ two (fun a b => in_range 0 0 a && in_range 1 9 b) s
  ++ one (in_range 1 9) s
  ++ two (fun a b => Ascii.eqb a blank && in_range 1 9 b) s.

Definition re_lit (c : ascii) (s : string) : list string :=
  match s with
  | String a r => if Ascii.eqb a c then [r] else []
  | _ => []
  end.

(** All matches of the whole expression, best first. *)
Definition re_date (s : string) : list (Z * Z * Z * string) :=
  '(y, r0) ← re_Y s;
  r1 ← re_lit dash r0;
  '(m, r2) ← re_m r1;
  r3 ← re_lit dash r2;
  '(d, r4) ← re_d r3;
  [(y, m, d, r4)].

Definition strptime (v : json) : exn + datetime :=
  match v with
  | JStr s =>
      match re_date s with
      | [] => inl ValueError
      | (y, m, d, rest) :: _ =>
          if negb (String.eqb rest "") then inl ValueError
          else if valid_date y m d then inr (mk_datetime y m d 0 0 0 0)
          else inl ValueError
      end
  | _ => inl TypeError
  end.

(** ** The explorer and the effects of the script *)

Definition ETHERSCAN_API_URL : string := "https://api.etherscan.io/api".

(** One HTTP GET: the address asked and the query parameters. *)
Record request : Type := mk_request {
  url : string;
  params : list (string * json)
}.

(** What comes back: nothing (the call raises), or a body that
    [response.json()] decodes ([Some]) or rejects ([None]). *)
Inductive reply : Type :=
| NoReply
| Reply (body : option json).

(** A computation reads and extends the log of the requests made so far and
    ends with a value or with an exception. *)
Definition M (A : Type) : Type := list request -> (exn + A) * list request.

Definition ret {A : Type} (a : A) : M A := fun log => (inr a, log).

Definition raise {A : Type} (e : exn) : M A := fun log => (inl e, log).

Definition bind {A B : Type} (c : M A) (k : A -> M B) : M B :=
  fun log =>
    match c log with
    | (inr a, log') => k a log'
    | (inl e, log') => (inl e, log')
    end.

Definition lift {A : Type} (r : exn + A) : M A :=
  match r with
  | inl e => raise e
  | inr a => ret a
  end.

Notation "'let!' x ':=' c 'in' k" := (bind c (fun x => k))
  (at level 10, x name, c at level 100, k at level 200).

(** A flagged call: the dict the script appends to [suspicious]. *)
Record finding : Type := mk_finding {
  f_to : json;
  f_method : json;
  f_age_days : Z;
  f_tx_hash : json
}.

(** [for tx in transactions]: a list gives its items, a string its
    characters, a dict its keys; nothing else can be iterated. *)
Definition iter (v : json) : exn + list json :=
  match v with
  | JArr l => inr l
  | JStr s => inr (map (fun c => JStr (String c EmptyString)) (list_ascii_of_string s))
  | JObj d => inr (map (fun kv => JStr (fst kv)) d)
  | _ => inl TypeError
  end.

Section Script.

(** The explorer answers a request knowing the requests made before it. *)
Variable explorer : list request -> request -> reply.

(** The reading of [datetime.utcnow()]. *)
Variable utcnow : datetime.

(** [requests.get(url, params=params)] followed by [.json()]. *)
Definition requests_get (u : string) (ps : list (string * json)) : M (option json) :=
  fun log =>
    let rq := mk_request u ps in
    match explorer log rq with
    | NoReply => (inl RequestException, (log ++ [rq])%list)
    | Reply b => (inr b, (log ++ [rq])%list)
    end.

Definition response_json (b : option json) : M json :=
  match b with
  | Some j => ret j
  | None => raise JSONDecodeError
  end.

Definition txlist_params (address api_key : json) : list (string * json) :=
  [("module", JStr "account"); ("action", JStr "txlist");
   ("address", address); ("startblock", JNum 0);
   ("endblock", JNum 99999999); ("sort", JStr "desc");
   ("apikey", api_key)].

Definition fetch_transactions (address api_key : json) : M json :=
  let! response := requests_get ETHERSCAN_API_URL (txlist_params address api_key) in
  let! body := response_json response in
  lift (get body "result" (JArr [])).

Definition getsourcecode_params (contract_address api_key : json)
  : list (string * json) :=
  [("module", JStr "contract"); ("action", JStr "getsourcecode");
   ("address", contract_address); ("apikey", api_key)].

Definition fetch_contract_info (contract_address api_key : json) : M json :=
  let! response := requests_get ETHERSCAN_API_URL
                (getsourcecode_params contract_address api_key) in
  let! body := response_json response in
  let! result := lift (get body "result" (JArr [])) in
  lift (subscript0 result).

(** The body of the [for] loop, for one [tx]; [continue] and the end of
    the body both hand [suspicious] to the next round. *)
Definition loop_body (api_key : json) (max_age_days : Z) (tx : json)
    (suspicious : list finding) : M (list finding) :=
  let! to := lift (subscript tx "to") in
  let! input_data := lift (get tx "input" (JStr "")) in
  if negb (truthy to) || negb (truthy input_data) || eq_str input_data "0x"
  then ret suspicious
  else
    let! contract_info := fetch_contract_info to api_key in
    let! source_code := lift (get contract_info "SourceCode" (JStr "")) in
    let! created := lift (get contract_info "LastUpdated" (JStr "")) in
    let! unverified :=
      (if negb (truthy source_code) then ret true
       else let! stripped := lift (strip source_code) in
            ret (eq_str stripped "")) in
    if (unverified : bool) then
      let! created_date := lift (strptime created) in
      let age_days := days (datetime_sub utcnow created_date) in
      if age_days <=? max_age_days then
        let! method := lift (slice_to 10 input_data) in
        let! tx_hash := lift (subscript tx "hash") in
        ret (suspicious ++ [mk_finding to method age_days tx_hash])%list
      else ret suspicious
    else ret suspicious.

Fixpoint loop (api_key : json) (max_age_days : Z) (txs : list json)
    (suspicious : list finding) : M (list finding) :=
  match txs with
  | [] => ret suspicious
  | tx :: rest =>
      let! suspicious' := loop_body api_key max_age_days tx suspicious in
      loop api_key max_age_days rest suspicious'
  end.

Definition detect_suspicious_contracts (transactions api_key : json)
    (max_age_days : Z) : M (list finding) :=
  let! txs := lift (iter transactions) in
  loop api_key max_age_days txs [].

End Script.

(** ** Vocabulary of the specification *)

(** The lookup the classifier sends for a recipient. *)
Definition lookup_request (to api_key : json) : request :=
  mk_request ETHERSCAN_API_URL (getsourcecode_params to api_key).

(** A field of a record of the explorer, the empty string when missing. *)
Definition field (k : string) (o : list (string * json)) : json :=
  match dict_get k o with
  | Some v => v
  | None => JStr ""
  end.

(** A candidate contract interaction: the recipient is there and not null
    (nor empty), the input payload is a string, present and not ["0x"]. *)
Definition candidate (o : list (string * json)) (to : json) (payload : string)
  : Prop :=
  dict_get "to" o = Some to /\ truthy to = true /\
  dict_get "input" o = Some (JStr payload) /\
  payload <> "" /\ payload <> "0x".

(** The transactions the classifier passes over. *)
Definition skipped (o : list (string * json)) : Prop :=
  dict_get "to" o = None \/ dict_get "to" o = Some JNull \/
  dict_get "input" o = None \/ dict_get "input" o = Some (JStr "") \/
  dict_get "input" o = Some (JStr "0x").

(** The explorer answers the lookup of [to], asked after the requests of
    [log], with a result list whose first element is the record [info]. *)
Definition looked_up (explorer : list request -> request -> reply)
    (log : list request) (to api_key : json) (info : list (string * json))
  : Prop :=
  exists body others,
    explorer log (lookup_request to api_key) = Reply (Some (JObj body)) /\
    dict_get "result" body = Some (JArr (JObj info :: others)).

(** The age in days the classifier computes for a parsed date. *)
Definition age_of (utcnow created_date : datetime) : Z :=
  days (datetime_sub utcnow created_date).

(** [f] was appended for [tx]: it repeats the recipient and the hash of
    [tx] and the first ten items of its input. *)
Definition flags (tx : json) (f : finding) : Prop :=
  exists o input_data,
    tx = JObj o /\
    dict_get "to" o = Some (f_to f) /\
    dict_get "input" o = Some input_data /\
    slice_to 10 input_data = inr (f_method f) /\
    dict_get "hash" o = Some (f_tx_hash f).

(** The order of [datetime] objects: their fields compared as tuples. *)
Fixpoint lex_lt (a b : list Z) : bool :=
  match a, b with
  | x :: a', y :: b' => (x <? y) || ((x =? y) && lex_lt a' b')
  | _, _ => false
  end.

Definition datetime_fields (t : datetime) : list Z :=
  [year t; month t; day t; hour t; minute t; second t; microsecond t].

Definition datetime_lt (a b : datetime) : bool :=
  lex_lt (datetime_fields a) (datetime_fields b).

Definition leap_day (y : Z) : Z := if is_leap y then 1 else 0.

(** The character of a decimal digit, and numbers padded with zeros. *)
Definition digit_char (n : Z) : ascii := ascii_of_N (Z.to_N (48 + n)).

Definition pad2 (n : Z) : string :=
  String (digit_char (n / 10)) (String (digit_char (n mod 10)) "").

Definition pad4 (n : Z) : string :=
  String (digit_char (n / 1000))
    (String (digit_char (n / 100 mod 10)) (pad2 (n mod 100))).

(** The texts that denote a date: the year in four digits, then the month
    and the day after a dash each, in two digits, or in one when below
    ten; a day below ten also as a blank and a digit. *)
Definition month_texts (m : Z) : list string :=
  pad2 m :: (if m <? 10 then [String (digit_char m) ""] else []).

Definition day_texts (d : Z) : list string :=
  pad2 d :: (if d <? 10
             then [String (digit_char d) ""; String blank (String (digit_char d) "")]
             else []).

Definition date_texts (y m d : Z) : list string :=
  mt ← month_texts m;
  dt ← day_texts d;
  [(pad4 y ++ String dash (mt ++ String dash dt))%string].

(** [s] is a way of writing the existing date [y]-[m]-[d]. *)
Definition names_date (s : string) (y m d : Z) : Prop :=
  valid_date y m d = true /\ s ∈ date_texts y m d.

(** The one writing of a date in the format YYYY-MM-DD. *)
Definition isoformat (y m d : Z) : string :=
  (pad4 y ++ String dash (pad2 m ++ String dash (pad2 d)))%string.

(** A text in the format YYYY-MM-DD: four digits, two digits and two
    digits, with a dash between them. *)
Definition is_YYYY_MM_DD (s : string) : bool :=
  match list_ascii_of_string s with
  | [y1; y2; y3; y4; s1; m1; m2; s2; d1; d2] =>
      forallb is_digit [y1; y2; y3; y4; m1; m2; d1; d2]
      && Ascii.eqb s1 dash && Ascii.eqb s2 dash
  | _ => false
  end.

(** Sample data: an explorer that knows six contracts and one wallet. *)
Module Demo.

Definition contract (src upd : string) : list (string * json) :=
  [("SourceCode", JStr src); ("ABI", JStr ""); ("LastUpdated", JStr upd)].

Definition contracts : list (string * json) :=
  [("0xAAA", JObj (contract "" "2024-01-05"));
   ("0xBBB", JObj (contract "  " "2023-12-11"));
   ("0xCCC", JObj (contract "pragma solidity ^0.8.0; contract X {}" "2024-01-09"));
   ("0xDDD", JObj (contract "" "2024-1-5"));
   ("0xEEE", JObj (contract "" "2024-01-11"));
   ("0xFFF", JObj (contract "" ""))].

Definition answer (status message : string) (result : json)
  : list (string * json) :=
  [("status", JStr status); ("message", JStr message); ("result", result)].

Definition call (h a payload : string) : list (string * json) :=
  [("hash", JStr h); ("from", JStr "0xWALLET"); ("to", JStr a);
   ("input", JStr payload)].

Definition transfer : list (string * json) := call "0xh0" "0xAAA" "0x".
Definition recent : list (string * json) :=
  call "0xh1" "0xAAA" "0xa9059cbb0000000000000000".
Definition old : list (string * json) :=
  call "0xh2" "0xBBB" "0xa9059cbb0000000000000000".
Definition verified : list (string * json) :=
  call "0xh3" "0xCCC" "0xa9059cbb0000000000000000".
Definition one_digit : list (string * json) :=
  call "0xh4" "0xDDD" "0xa9059cbb0000000000000000".
Definition future : list (string * json) :=
  call "0xh5" "0xEEE" "0xa9059cbb0000000000000000".
Definition undated : list (string * json) :=
  call "0xh6" "0xFFF" "0xa9059cbb0000000000000000".
Definition unknown : list (string * json) :=
  call "0xh7" "0x000" "0xa9059cbb0000000000000000".
Definition short : list (string * json) := call "0xh8" "0xAAA" "0xa905".

Definition history : list json :=
  [JObj recent; JObj transfer; JObj old; JObj verified; JObj short].

(** The key ["KEY"] is the one the explorer accepts. *)
Definition explorer : list request -> request -> reply :=
  fun _ rq =>
    let ps := params rq in
    if negb (eq_str (field "apikey" ps) "KEY") then
      Reply (Some (JObj (answer "0" "NOTOK" (JStr "Invalid API Key"))))
    else if eq_str (field "action" ps) "txlist" then
      if eq_str (field "address" ps) "0xWALLET"
      then Reply (Some (JObj (answer "1" "OK" (JArr history))))
      else Reply (Some (JObj (answer "0" "No transactions found" (JArr []))))
    else
      match field "address" ps with
      | JStr a =>
          match dict_get a contracts with
          | Some c => Reply (Some (JObj (answer "1" "OK" (JArr [c]))))
          | None => Reply (Some (JObj (answer "0" "NOTOK" (JArr []))))
          end
      | _ => Reply (Some (JObj (answer "0" "NOTOK" (JArr []))))
      end.

Definition utcnow : datetime := mk_datetime 2024 1 10 13 5 0 0.

Definition api_key : json := JStr "KEY".

Definition lookup (a : string) : request := lookup_request (JStr a) api_key.

End Demo.

(** ** The command line

    The block under [if __name__ == "__main__"], after [argparse] has read
    the address, the key and [--age] (7 when not given). *)

Definition default_age : Z := 7.

(** [len(v)]: a dict counts its keys. *)
Definition len (v : json) : exn + nat :=
  match v with
  | JArr l => inr (length l)
  | JStr s => inr (String.length s)
  | JObj d => inr (length (nodup string_dec (map fst d)))
  | _ => inl TypeError
  end.

(** One call of [print]: the text is fixed by the constructor, the values
    formatted into it are its arguments. *)
Inductive line : Type :=
| Analysing (address : json)
| Found (count : nat)
| NothingFound
| Alert
| Entry (s : finding).

(** The lines printed for the findings. *)
Definition report (suspicious : list finding) : list line :=
  match suspicious with
  | [] => [NothingFound]
  | _ :: _ => Alert :: map Entry suspicious
  end.

(** The run of the script: how it ends, what it printed, what it asked.
    Writing a line to the standard output is taken to succeed: a [print]
    that raises, because the output cannot take the text, is not part of
    this definition. *)
Definition main (explorer : list request -> request -> reply)
    (utcnow : datetime) (address api_key : json) (age : Z)
    (log : list request) : (exn + unit) * list line * list request :=
  let out1 := [Analysing address] in
  match fetch_transactions explorer address api_key log with
  | (inl e, log1) => (inl e, out1, log1)
  | (inr txs, log1) =>
      match len txs with
      | inl e => (inl e, out1, log1)
      | inr n =>
          let out2 := (out1 ++ [Found n])%list in
          match detect_suspicious_contracts explorer utcnow txs api_key age
                  log1 with
          | (inl e, log2) => (inl e, out2, log2)
          | (inr suspicious, log2) =>
              (inr tt, (out2 ++ report suspicious)%list, log2)
          end
      end
  end.

(** ** Vocabulary of the further properties *)

(** The test of the loop on a transaction: it is an object with a
    recipient and an input that Python takes for true, the input not
    ["0x"]. *)
Definition is_candidate (tx : json) : bool :=
  match tx with
  | JObj o =>
      match dict_get "to" o with
      | Some to =>
          truthy to && truthy (field "input" o)
          && negb (eq_str (field "input" o) "0x")
      | None => false
      end
  | _ => false
  end.

Definition recipient (tx : json) : json :=
  match tx with
  | JObj o => field "to" o
  | _ => JNull
  end.

(** The lookups a run makes for a list of transactions, one per candidate,
    repeated recipients included. *)
Definition lookups (api_key : json) (txs : list json) : list request :=
  flat_map (fun tx => if is_candidate tx
                      then [lookup_request (recipient tx) api_key]
                      else []) txs.

Definition txlist_request (address api_key : json) : request :=
  mk_request ETHERSCAN_API_URL (txlist_params address api_key).

Module Demo2.

(** An explorer that is out of order: it answers every request with a
    message. *)
Definition limited : list request -> request -> reply :=
  fun _ _ =>
    Reply (Some (JObj (Demo.answer "0" "NOTOK" (JStr "Max rate limit reached")))).

Definition offline : list request -> request -> reply := fun _ _ => NoReply.

(** Odd records: a contract without source field value, one with a number
    for source, one with no date value. *)
Definition odd_contracts : list (string * json) :=
  [("0xAAA", JObj [("SourceCode", JNull); ("LastUpdated", JStr "2024-01-05")]);
   ("0xBBB", JObj [("SourceCode", JNum 1); ("LastUpdated", JStr "2024-01-05")]);
   ("0xCCC", JObj [("SourceCode", JStr ""); ("LastUpdated", JNull)])].

Definition odd : list request -> request -> reply :=
  fun _ rq =>
    match field "address" (params rq) with
    | JStr a =>
        match dict_get a odd_contracts with
        | Some c => Reply (Some (JObj (Demo.answer "1" "OK" (JArr [c]))))
        | None => Reply (Some (JObj (Demo.answer "0" "NOTOK" (JArr []))))
        end
    | _ => Reply (Some (JObj (Demo.answer "0" "NOTOK" (JArr []))))
    end.

Definition no_hash : list (string * json) :=
  [("to", JStr "0xAAA"); ("input", JStr "0xa9059cbb0000000000000000")].

Definition evening : datetime := mk_datetime 2024 1 10 23 59 59 999999.

(** A wallet whose second call goes to a contract the explorer does not
    know. *)
Definition broken_history : list json :=
  [JObj Demo.recent; JObj Demo.unknown; JObj Demo.recent].

Definition broken : list request -> request -> reply :=
  fun l rq =>
    if eq_str (field "action" (params rq)) "txlist"
    then Reply (Some (JObj (Demo.answer "1" "OK" (JArr broken_history))))
    else Demo.explorer l rq.

End Demo2.

(** * Lemmas *)

(** ** Basic facts *)

Lemma str_take_substring (n : nat) (s : string) :
  str_take n s = substring 0 n s.
Proof.
  revert s; induction n as [|n IH]; intros [|c s]; simpl; auto.
  now rewrite IH.
Qed.

Lemma str_take_all (n : nat) (s : string) :
  (String.length s <= n)%nat -> str_take n s = s.
Proof.
  revert s; induction n as [|n IH]; intros [|c s]; simpl; auto; try lia.
  intros H. rewrite IH; auto. lia.
Qed.

Lemma eqb_false_of_neq (s t : string) : s <> t -> String.eqb s t = false.
Proof. intros H. now apply String.eqb_neq. Qed.

Lemma candidate_passes (o : list (string * json)) (to : json) (payload : string) :
  candidate o to payload ->
  subscript (JObj o) "to" = inr to /\
  get (JObj o) "input" (JStr "") = inr (JStr payload) /\
  negb (truthy to) || negb (truthy (JStr payload)) || eq_str (JStr payload) "0x"
  = false.
Proof.
  intros (Hto & Ht & Hin & Hne & H0x). simpl.
  rewrite Hto, Hin, Ht. repeat split.
  now rewrite !eqb_false_of_neq.
Qed.

Section Lookup.

Variable explorer : list request -> request -> reply.

Lemma fetch_contract_info_reply (to api_key : json) (log : list request)
    (body : list (string * json)) :
  explorer log (lookup_request to api_key) = Reply (Some (JObj body)) ->
  fetch_contract_info explorer to api_key log =
  (subscript0 (match dict_get "result" body with
               | Some r => r
               | None => JArr []
               end),
   (log ++ [lookup_request to api_key])%list).
Proof.
  intros H. unfold fetch_contract_info, bind, requests_get.
  fold (lookup_request to api_key). rewrite H. simpl.
  now destruct (subscript0 _).
Qed.

Lemma fetch_contract_info_looked_up (to api_key : json) (log : list request)
    (info : list (string * json)) :
  looked_up explorer log to api_key info ->
  fetch_contract_info explorer to api_key log =
  (inr (JObj info), (log ++ [lookup_request to api_key])%list).
Proof.
  intros (body & others & Hr & Hres).
  rewrite (fetch_contract_info_reply _ _ _ _ Hr), Hres. reflexivity.
Qed.

End Lookup.

(** ** Trimming *)

(** A string is empty once trimmed exactly when it holds white space
    only. *)
Lemma rstrip_empty (s : string) :
  rstrip s = "" <-> forallb is_space (list_ascii_of_string s) = true.
Proof.
  induction s as [|c s IH]; simpl; [tauto|].
  rewrite andb_true_iff, <- IH.
  destruct (rstrip s); destruct (is_space c); split; intros H;
    try discriminate; try tauto; destruct H; discriminate.
Qed.

Lemma lstrip_spaces (s : string) :
  forallb is_space (list_ascii_of_string (lstrip s)) = true <->
  forallb is_space (list_ascii_of_string s) = true.
Proof.
  induction s as [|c s IH]; simpl; [tauto|].
  destruct (is_space c) eqn:E; simpl; [assumption|].
  now rewrite E.
Qed.

Lemma str_strip_empty (s : string) :
  str_strip s = "" <-> forallb is_space (list_ascii_of_string s) = true.
Proof. unfold str_strip. now rewrite rstrip_empty, lstrip_spaces. Qed.

(** ** Running a computation step by step *)

Lemma bind_lift_inr {A B : Type} (r : exn + A) (a : A) (k : A -> M B)
    (log : list request) :
  r = inr a -> bind (lift r) k log = k a log.
Proof. now intros ->. Qed.

Lemma bind_lift_inl {A B : Type} (r : exn + A) (e : exn) (k : A -> M B)
    (log : list request) :
  r = inl e -> bind (lift r) k log = (inl e, log).
Proof. now intros ->. Qed.

Lemma bind_inr {A B : Type} (c : M A) (k : A -> M B) (log log' : list request)
    (a : A) :
  c log = (inr a, log') -> bind c k log = k a log'.
Proof. unfold bind. now intros ->. Qed.

Lemma bind_inl {A B : Type} (c : M A) (k : A -> M B) (log log' : list request)
    (e : exn) :
  c log = (inl e, log') -> bind c k log = (inl e, log').
Proof. unfold bind. now intros ->. Qed.

Lemma get_field (k : string) (o : list (string * json)) :
  get (JObj o) k (JStr "") = inr (field k o).
Proof. reflexivity. Qed.

(** Runs [loop_body] on a candidate whose lookup is answered, down to the
    test on the source code. *)
Ltac enter_body Hc Hl :=
  let Hto := fresh "Hto" in
  let Hin := fresh "Hin" in
  let Hgo := fresh "Hgo" in
  destruct (candidate_passes _ _ _ Hc) as (Hto & Hin & Hgo);
  unfold loop_body;
  rewrite (bind_lift_inr _ _ _ _ Hto), (bind_lift_inr _ _ _ _ Hin), Hgo;
  rewrite (bind_inr _ _ _ _ _ (fetch_contract_info_looked_up _ _ _ _ _ Hl));
  rewrite (bind_lift_inr _ _ _ _ (get_field "SourceCode" _));
  rewrite (bind_lift_inr _ _ _ _ (get_field "LastUpdated" _)).

Section Classifier.

Variable explorer : list request -> request -> reply.
Variable utcnow : datetime.

Lemma loop_body_unverified (api_key : json) (max_age_days : Z)
    (o info : list (string * json)) (to h : json) (payload src : string)
    (created_date : datetime) (suspicious : list finding)
    (log : list request) :
  candidate o to payload ->
  dict_get "hash" o = Some h ->
  looked_up explorer log to api_key info ->
  field "SourceCode" info = JStr src ->
  str_strip src = "" ->
  strptime (field "LastUpdated" info) = inr created_date ->
  loop_body explorer utcnow api_key max_age_days (JObj o) suspicious log =
  (inr (if age_of utcnow created_date <=? max_age_days
        then suspicious ++ [mk_finding to (JStr (str_take 10 payload))
                              (age_of utcnow created_date) h]
        else suspicious)%list,
   (log ++ [lookup_request to api_key])%list).
Proof.
  intros Hc Hh Hl Hsrc Hstrip Hdate.
  enter_body Hc Hl.
  rewrite Hsrc.
  assert (Hunv : (if negb (truthy (JStr src)) then ret true
                  else let! stripped := lift (strip (JStr src)) in
                       ret (eq_str stripped ""))
                 (log ++ [lookup_request to api_key])%list
                 = (inr true, (log ++ [lookup_request to api_key])%list)).
  { destruct (negb (truthy (JStr src))); [reflexivity|].
    unfold bind; simpl. now rewrite Hstrip. }
  rewrite (bind_inr _ _ _ _ _ Hunv).
  rewrite (bind_lift_inr _ _ _ _ Hdate).
  fold (age_of utcnow created_date).
  destruct (age_of utcnow created_date <=? max_age_days); [|reflexivity].
  unfold bind; simpl. now rewrite Hh.
Qed.

Lemma loop_body_verified (api_key : json) (max_age_days : Z)
    (o info : list (string * json)) (to : json) (payload src : string)
    (suspicious : list finding) (log : list request) :
  candidate o to payload ->
  looked_up explorer log to api_key info ->
  field "SourceCode" info = JStr src ->
  str_strip src <> "" ->
  loop_body explorer utcnow api_key max_age_days (JObj o) suspicious log =
  (inr suspicious, (log ++ [lookup_request to api_key])%list).
Proof.
  intros Hc Hl Hsrc Hstrip.
  enter_body Hc Hl.
  rewrite Hsrc.
  assert (Hne : src <> "") by (intros ->; now apply Hstrip).
  unfold bind; simpl.
  rewrite (eqb_false_of_neq _ _ Hne); simpl.
  now rewrite (eqb_false_of_neq _ _ Hstrip).
Qed.

Lemma loop_body_skipped (api_key : json) (max_age_days : Z)
    (o : list (string * json)) (suspicious : list finding)
    (log : list request) :
  skipped o ->
  loop_body explorer utcnow api_key max_age_days (JObj o) suspicious log =
  (match dict_get "to" o with
   | Some _ => inr suspicious
   | None => inl KeyError
   end, log).
Proof.
  intros Hs. unfold loop_body, bind; simpl.
  destruct (dict_get "to" o) as [to|] eqn:Hto; [|reflexivity]. simpl.
  destruct Hs as [H|[H|[H|[H|H]]]].
  - congruence.
  - replace to with JNull by congruence. reflexivity.
  - rewrite H. simpl. now rewrite orb_true_r.
  - rewrite H. simpl. now rewrite orb_true_r.
  - rewrite H. simpl. now rewrite orb_true_r.
Qed.

End Classifier.

(** ** The whole run *)

Lemma bind_inr_inv {A B : Type} (c : M A) (k : A -> M B)
    (log log' : list request) (b : B) :
  bind c k log = (inr b, log') ->
  exists a log1, c log = (inr a, log1) /\ k a log1 = (inr b, log').
Proof.
  unfold bind. destruct (c log) as [[e|a] log1]; [discriminate|].
  intros H. now exists a, log1.
Qed.

Lemma lift_inr_inv {A : Type} (r : exn + A) (log log' : list request) (a : A) :
  lift r log = (inr a, log') -> r = inr a /\ log' = log.
Proof.
  destruct r as [e|x]; simpl; unfold raise, ret; intros H; [discriminate|].
  split; congruence.
Qed.

Lemma ret_inr_inv {A : Type} (x a : A) (log log' : list request) :
  ret x log = (inr a, log') -> x = a /\ log' = log.
Proof. unfold ret. intros H. split; congruence. Qed.

Section Run.

Variable explorer : list request -> request -> reply.
Variable utcnow : datetime.
Variable api_key : json.
Variable max_age_days : Z.

#[local] Abbreviation body := (loop_body explorer utcnow api_key max_age_days).
#[local] Abbreviation run := (loop explorer utcnow api_key max_age_days).

(** A round that ends normally leaves [suspicious] as it was or appends
    one finding, made from the transaction of that round. *)
Lemma loop_body_appends (tx : json) (suspicious out : list finding)
    (log log' : list request) :
  body tx suspicious log = (inr out, log') ->
  out = suspicious \/
  exists f, out = (suspicious ++ [f])%list /\ flags tx f.
Proof.
  unfold loop_body. intros H.
  apply bind_inr_inv in H as (to & l1 & Hto & H).
  apply lift_inr_inv in Hto as (Hto & ->).
  apply bind_inr_inv in H as (input_data & l2 & Hin & H).
  apply lift_inr_inv in Hin as (Hin & ->).
  destruct (negb (truthy to) || negb (truthy input_data)
            || eq_str input_data "0x") eqn:Hgo.
  { apply ret_inr_inv in H as (-> & _). now left. }
  apply bind_inr_inv in H as (contract_info & l3 & _ & H).
  apply bind_inr_inv in H as (source_code & l4 & _ & H).
  apply bind_inr_inv in H as (created & l5 & _ & H).
  apply bind_inr_inv in H as (unverified & l6 & _ & H).
  destruct unverified.
  2:{ apply ret_inr_inv in H as (-> & _). now left. }
  apply bind_inr_inv in H as (created_date & l7 & _ & H).
  destruct (_ <=? _).
  2:{ apply ret_inr_inv in H as (-> & _). now left. }
  apply bind_inr_inv in H as (method & l8 & Hm & H).
  apply lift_inr_inv in Hm as (Hm & ->).
  apply bind_inr_inv in H as (tx_hash & l9 & Hh & H).
  apply lift_inr_inv in Hh as (Hh & ->).
  apply ret_inr_inv in H as (<- & _).
  right. eexists; split; [reflexivity|].
  destruct tx as [| | | | |o]; try discriminate.
  simpl in Hto, Hin, Hh.
  destruct (dict_get "to" o) as [to'|] eqn:Eto; [|discriminate].
  destruct (dict_get "hash" o) as [h'|] eqn:Eh; [|discriminate].
  injection Hto as ->. injection Hh as ->. injection Hin as Hin.
  destruct (dict_get "input" o) as [i|] eqn:Ei.
  - subst i. exists o, input_data. simpl. auto.
  - subst input_data. simpl in Hgo. now rewrite orb_true_r in Hgo.
Qed.

Lemma loop_app (pre post : list json) (suspicious : list finding)
    (log : list request) :
  run (pre ++ post)%list suspicious log
  = bind (run pre suspicious) (run post) log.
Proof.
  revert suspicious log. induction pre as [|tx pre IH]; intros suspicious log.
  - reflexivity.
  - simpl. unfold bind at 1 2 3.
    destruct (body tx suspicious log) as [[e|s] l]; [reflexivity|].
    apply IH.
Qed.

(** The findings of a run that ends normally come, in order, from a
    subsequence of the transactions. *)
Lemma loop_flags (txs : list json) (suspicious out : list finding)
    (log log' : list request) :
  run txs suspicious log = (inr out, log') ->
  exists qs fs,
    out = (suspicious ++ fs)%list /\ sublist qs txs /\ Forall2 flags qs fs.
Proof.
  revert suspicious log. induction txs as [|tx txs IH]; intros suspicious log H.
  - apply ret_inr_inv in H as (<- & _).
    exists [], []. rewrite app_nil_r. repeat split; constructor.
  - simpl in H. apply bind_inr_inv in H as (s1 & l1 & Hb & H).
    apply IH in H as (qs & fs & -> & Hsub & Hfl).
    apply loop_body_appends in Hb as [->|(f & -> & Hf)].
    + exists qs, fs. repeat split; auto. now constructor.
    + exists (tx :: qs), (f :: fs). rewrite <- app_assoc. simpl.
      repeat split; auto. now constructor.
Qed.

Lemma loop_skip (pre post : list json) (o : list (string * json)) (to : json)
    (suspicious : list finding) (log : list request) :
  skipped o -> dict_get "to" o = Some to ->
  run (pre ++ JObj o :: post)%list suspicious log
  = run (pre ++ post)%list suspicious log.
Proof.
  intros Hs Hto. rewrite !loop_app. unfold bind.
  destruct (run pre suspicious log) as [[e|s] l]; [reflexivity|].
  simpl. unfold bind.
  now rewrite (loop_body_skipped _ _ _ _ _ _ _ Hs), Hto.
Qed.

(** An exception in one round ends the run: the findings gathered so far
    are not returned. *)
Lemma loop_abort (pre post : list json) (tx : json)
    (suspicious : list finding) (log : list request) :
  fst (run (pre ++ tx :: post)%list suspicious log) =
  match run pre suspicious log with
  | (inl e, _) => inl e
  | (inr s, l) =>
      match body tx s l with
      | (inl e, _) => inl e
      | (inr s', l') => fst (run post s' l')
      end
  end.
Proof.
  rewrite loop_app. unfold bind at 1.
  destruct (run pre suspicious log) as [[e|s] l]; [reflexivity|].
  simpl. unfold bind.
  now destruct (body tx s l) as [[e|s'] l'].
Qed.

Lemma detect_list (txs : list json) (log : list request) :
  detect_suspicious_contracts explorer utcnow (JArr txs) api_key max_age_days
    log
  = run txs [] log.
Proof. reflexivity. Qed.

End Run.

(** ** Dates and ages *)

Ltac month_cases m :=
  let H := fresh in
  assert (H : m = 1 \/ m = 2 \/ m = 3 \/ m = 4 \/ m = 5 \/ m = 6 \/ m = 7 \/
              m = 8 \/ m = 9 \/ m = 10 \/ m = 11 \/ m = 12) by lia;
  repeat (destruct H as [H|H]); subst m.

Lemma days_before_next_year (y : Z) :
  days_before_year (y + 1) = days_before_year y + 365 + leap_day y.
Proof.
  unfold days_before_year, leap_day, is_leap.
  replace (y + 1 - 1) with y by lia.
  destruct (Z.eqb_spec (y mod 4) 0), (Z.eqb_spec (y mod 100) 0),
    (Z.eqb_spec (y mod 400) 0); simpl; Z.div_mod_to_equations; lia.
Qed.

Lemma days_before_year_mono (y1 y2 : Z) :
  y1 <= y2 -> days_before_year y1 <= days_before_year y2.
Proof.
  unfold days_before_year. intros H. Z.div_mod_to_equations. lia.
Qed.

Lemma day_of_year_bounds (y m d : Z) :
  valid_date y m d = true ->
  1 <= days_before_month y m + d <= 365 + leap_day y.
Proof.
  unfold valid_date. intros H.
  repeat (apply andb_prop in H as [H ?]).
  assert (1 <= m <= 12) by lia.
  unfold leap_day. month_cases m;
    unfold days_before_month, days_in_month in *; simpl in *;
    destruct (is_leap y); simpl in *; lia.
Qed.

Lemma days_before_month_step (y m1 m2 d : Z) :
  valid_date y m1 d = true -> m1 < m2 <= 12 ->
  days_before_month y m1 + d <= days_before_month y m2.
Proof.
  unfold valid_date. intros H Hm.
  repeat (apply andb_prop in H as [H ?]).
  assert (1 <= m1 <= 12) by lia.
  assert (1 <= m2 <= 12) by lia.
  month_cases m1; month_cases m2; try lia;
    unfold days_before_month, days_in_month in *; simpl in *;
    destruct (is_leap y); simpl in *; lia.
Qed.

(** [toordinal] follows the calendar order of existing dates. *)
Lemma ymd2ord_lt (y1 m1 d1 y2 m2 d2 : Z) :
  valid_date y1 m1 d1 = true -> valid_date y2 m2 d2 = true ->
  lex_lt [y1; m1; d1] [y2; m2; d2] = true ->
  ymd2ord y1 m1 d1 < ymd2ord y2 m2 d2.
Proof.
  intros V1 V2 L. unfold ymd2ord.
  pose proof (day_of_year_bounds _ _ _ V1) as B1.
  pose proof (day_of_year_bounds _ _ _ V2) as B2.
  simpl in L.
  destruct (Z.ltb_spec y1 y2) as [Hy|Hy].
  - pose proof (days_before_next_year y1).
    pose proof (days_before_year_mono (y1 + 1) y2 ltac:(lia)). lia.
  - simpl in L. apply andb_prop in L as [Ey L].
    apply Z.eqb_eq in Ey. subst y2.
    destruct (Z.ltb_spec m1 m2) as [Hm|Hm].
    + assert (m2 <= 12).
      { unfold valid_date in V2.
        repeat (apply andb_prop in V2 as [V2 ?]). lia. }
      pose proof (days_before_month_step y1 m1 m2 d1 V1 ltac:(lia)).
      assert (1 <= d2).
      { unfold valid_date in V2.
        repeat (apply andb_prop in V2 as [V2 ?]). lia. }
      lia.
    + simpl in L. apply andb_prop in L as [Em L].
      apply Z.eqb_eq in Em. subst m2.
      destruct (Z.ltb_spec d1 d2); [lia|].
      simpl in L. rewrite andb_false_r in L. discriminate.
Qed.

(** A date that [strptime] returns exists and is at midnight. *)
Lemma strptime_inr (v : json) (t : datetime) :
  strptime v = inr t ->
  valid_date (year t) (month t) (day t) = true /\
  hour t = 0 /\ minute t = 0 /\ second t = 0 /\ microsecond t = 0.
Proof.
  destruct v as [| | |s| |]; try discriminate. simpl.
  destruct (re_date s) as [|[[[y m] d] rest] ?]; [discriminate|].
  destruct (negb _); [discriminate|].
  destruct (valid_date y m d) eqn:V; [|discriminate].
  intros H. injection H as <-. simpl. auto.
Qed.

Lemma valid_datetime_bounds (t : datetime) :
  valid_datetime t = true ->
  valid_date (year t) (month t) (day t) = true /\
  0 <= hour t < 24 /\ 0 <= minute t < 60 /\ 0 <= second t < 60 /\
  0 <= microsecond t < 1000000.
Proof.
  unfold valid_datetime. rewrite !andb_true_iff, !Z.leb_le, !Z.ltb_lt. tauto.
Qed.

(** Against a date at midnight the age is the difference of the day
    numbers: the time of day of [utcnow] is floored away. *)
Lemma age_of_midnight (utcnow t : datetime) :
  valid_datetime utcnow = true ->
  hour t = 0 -> minute t = 0 -> second t = 0 -> microsecond t = 0 ->
  age_of utcnow t = toordinal utcnow - toordinal t.
Proof.
  intros V Hh Hm Hs Hu.
  unfold age_of, datetime_sub, timedelta_new; simpl days.
  rewrite Hh, Hm, Hs, Hu.
  apply valid_datetime_bounds in V as (_ & ? & ? & ? & ?).
  Z.div_mod_to_equations. lia.
Qed.

(** A date that lies after [utcnow] has a negative age. *)
Lemma age_of_future (utcnow t : datetime) (v : json) :
  valid_datetime utcnow = true ->
  strptime v = inr t ->
  datetime_lt utcnow t = true ->
  age_of utcnow t < 0.
Proof.
  intros V Hp L.
  destruct (strptime_inr _ _ Hp) as (Vt & Hh & Hm & Hs & Hu).
  rewrite (age_of_midnight _ _ V Hh Hm Hs Hu).
  apply valid_datetime_bounds in V as (Vd & ? & ? & ? & ?).
  enough (toordinal utcnow < toordinal t) by lia.
  apply ymd2ord_lt; auto.
  unfold datetime_lt, datetime_fields in L. rewrite Hh, Hm, Hs, Hu in L.
  simpl in *.
  repeat match goal with
         | H : context [?a <? ?b] |- _ => destruct (Z.ltb_spec a b); simpl in H
         | H : context [?a =? ?b] |- _ => destruct (Z.eqb_spec a b); simpl in H
         end; simpl; try discriminate; try reflexivity; try lia.
Qed.

(** ** What [strptime] reads *)

Lemma is_digit_char (c : ascii) :
  is_digit c = true -> digit_char (digit c) = c /\ 0 <= digit c <= 9.
Proof.
  unfold is_digit, digit_char, digit, code. intros H.
  apply andb_prop in H as [H1 H2]. apply Z.leb_le in H1, H2.
  split; [|lia].
  replace (48 + (Z.of_N (N_of_ascii c) - 48)) with (Z.of_N (N_of_ascii c)) by lia.
  now rewrite N2Z.id, ascii_N_embedding.
Qed.

Lemma digit_char_digit (k : Z) :
  0 <= k <= 9 -> is_digit (digit_char k) = true /\ digit (digit_char k) = k.
Proof.
  intros H.
  assert (E : k = 0 \/ k = 1 \/ k = 2 \/ k = 3 \/ k = 4 \/ k = 5 \/ k = 6 \/
              k = 7 \/ k = 8 \/ k = 9) by lia.
  repeat (destruct E as [E|E]); subst k; split; reflexivity.
Qed.

Lemma in_range_spec (lo hi : Z) (c : ascii) :
  in_range lo hi c = true ->
  digit_char (digit c) = c /\ lo <= digit c <= hi /\ 0 <= digit c <= 9.
Proof.
  unfold in_range. intros H.
  apply andb_prop in H as [H H3]. apply andb_prop in H as [H1 H2].
  apply is_digit_char in H1 as [? ?].
  apply Z.leb_le in H2, H3. auto.
Qed.

Lemma pad2_digits (a b : Z) :
  0 <= a <= 9 -> 0 <= b <= 9 ->
  pad2 (a * 10 + b) = String (digit_char a) (String (digit_char b) "").
Proof.
  intros Ha Hb. unfold pad2.
  replace ((a * 10 + b) / 10) with a by (Z.div_mod_to_equations; lia).
  replace ((a * 10 + b) mod 10) with b by (Z.div_mod_to_equations; lia).
  reflexivity.
Qed.

Lemma pad4_digits (a b c d : Z) :
  0 <= a <= 9 -> 0 <= b <= 9 -> 0 <= c <= 9 -> 0 <= d <= 9 ->
  pad4 (a * 1000 + b * 100 + c * 10 + d) =
  String (digit_char a) (String (digit_char b)
    (String (digit_char c) (String (digit_char d) ""))).
Proof.
  intros Ha Hb Hc Hd. unfold pad4.
  set (n := a * 1000 + b * 100 + c * 10 + d).
  replace (n / 1000) with a by (subst n; Z.div_mod_to_equations; lia).
  replace (n / 100 mod 10) with b by (subst n; Z.div_mod_to_equations; lia).
  replace (n mod 100) with (c * 10 + d) by (subst n; Z.div_mod_to_equations; lia).
  now rewrite pad2_digits.
Qed.

(** Every match of a group reads one of the texts of its number. *)

Lemma re_Y_sound (s r : string) (y : Z) :
  (y, r) ∈ re_Y s -> s = (pad4 y ++ r)%string /\ 0 <= y <= 9999.
Proof.
  unfold re_Y.
  destruct s as [|a [|b [|c [|d s]]]]; try (intros H; inversion H; fail).
  destruct (is_digit a) eqn:Ha; [|intros H; inversion H].
  destruct (is_digit b) eqn:Hb; [|intros H; inversion H].
  destruct (is_digit c) eqn:Hc; [|intros H; inversion H].
  destruct (is_digit d) eqn:Hd; [|intros H; inversion H].
  cbn [andb]. intros H. apply list_elem_of_singleton in H. injection H as -> ->.
  apply is_digit_char in Ha as [Ea ?], Hb as [Eb ?], Hc as [Ec ?], Hd as [Ed ?].
  rewrite pad4_digits by assumption. rewrite Ea, Eb, Ec, Ed.
  split; [reflexivity|lia].
Qed.

Lemma two_sound (p : ascii -> ascii -> bool) (s r : string) (n : Z) :
  (n, r) ∈ two p s ->
  exists a b, s = String a (String b r) /\ p a b = true /\
              n = (if is_digit a then digit a * 10 else 0) + digit b.
Proof.
  unfold two. destruct s as [|a [|b s]]; try (intros H; inversion H; fail).
  destruct (p a b) eqn:Hp; [|intros H; inversion H].
  intros H. apply list_elem_of_singleton in H. injection H as -> ->.
  now exists a, b.
Qed.

Lemma one_sound (p : ascii -> bool) (s r : string) (n : Z) :
  (n, r) ∈ one p s ->
  exists a, s = String a r /\ p a = true /\ n = digit a.
Proof.
  unfold one. destruct s as [|a s]; try (intros H; inversion H; fail).
  destruct (p a) eqn:Hp; [|intros H; inversion H].
  intros H. apply list_elem_of_singleton in H. injection H as -> ->.
  now exists a.
Qed.

Lemma re_lit_sound (c : ascii) (s r : string) :
  r ∈ re_lit c s -> s = String c r.
Proof.
  unfold re_lit. destruct s as [|a s]; [intros H; inversion H|].
  destruct (Ascii.eqb_spec a c) as [->|]; [|intros H; inversion H].
  intros H. apply list_elem_of_singleton in H. now subst.
Qed.

(** Two digits [a] and [b] that were matched, read as one number. *)
Ltac read_two Ha Hb :=
  apply in_range_spec in Ha as (? & ? & ?);
  apply in_range_spec in Hb as (? & ? & ?).

Lemma two_digits_text (a b : ascii) :
  is_digit a = true -> is_digit b = true ->
  pad2 (digit a * 10 + digit b) = String a (String b "").
Proof.
  intros Ha Hb.
  apply is_digit_char in Ha as [Ea ?], Hb as [Eb ?].
  rewrite pad2_digits by assumption. now rewrite Ea, Eb.
Qed.

Lemma in_range_digit (lo hi : Z) (c : ascii) :
  in_range lo hi c = true -> is_digit c = true.
Proof.
  unfold in_range. intros H.
  apply andb_prop in H as [H _]. now apply andb_prop in H as [H _].
Qed.

Lemma re_m_sound (s r : string) (m : Z) :
  (m, r) ∈ re_m s ->
  1 <= m <= 12 /\ exists mt, mt ∈ month_texts m /\ s = (mt ++ r)%string.
Proof.
  unfold re_m. rewrite !elem_of_app. intros [H|[H|H]].
  - apply two_sound in H as (a & b & -> & Hp & ->).
    apply andb_prop in Hp as [Ha Hb].
    pose proof (in_range_digit _ _ _ Ha) as Da.
    pose proof (in_range_digit _ _ _ Hb) as Db.
    rewrite Da. read_two Ha Hb. split; [lia|].
    exists (String a (String b "")). split; [|reflexivity].
    unfold month_texts. rewrite two_digits_text by assumption. left.
  - apply two_sound in H as (a & b & -> & Hp & ->).
    apply andb_prop in Hp as [Ha Hb].
    pose proof (in_range_digit _ _ _ Ha) as Da.
    pose proof (in_range_digit _ _ _ Hb) as Db.
    rewrite Da. read_two Ha Hb. split; [lia|].
    exists (String a (String b "")). split; [|reflexivity].
    unfold month_texts. rewrite two_digits_text by assumption. left.
  - apply one_sound in H as (a & -> & Ha & ->).
    apply in_range_spec in Ha as (Ea & ? & ?). split; [lia|].
    exists (String a ""). split; [|reflexivity].
    unfold month_texts.
    destruct (Z.ltb_spec (digit a) 10); [|lia].
    rewrite Ea. right. left.
Qed.

Lemma re_d_sound (s r : string) (d : Z) :
  (d, r) ∈ re_d s ->
  1 <= d <= 31 /\ exists dt, dt ∈ day_texts d /\ s = (dt ++ r)%string.
Proof.
  unfold re_d. rewrite !elem_of_app. intros [H|[H|[H|[H|H]]]].
  1-3: apply two_sound in H as (a & b & -> & Hp & ->);
    apply andb_prop in Hp as [Ha Hb];
    pose proof (in_range_digit _ _ _ Ha) as Da;
    try pose proof (in_range_digit _ _ _ Hb) as Db;
    try (assert (Db : is_digit b = true) by exact Hb);
    rewrite Da;
    apply in_range_spec in Ha as (? & ? & ?);
    pose proof (is_digit_char _ Db) as [? ?];
    try (apply in_range_spec in Hb as (? & ? & ?));
    (split; [lia|]);
    exists (String a (String b "")); (split; [|reflexivity]);
    unfold day_texts; rewrite two_digits_text by assumption; left.
  - apply one_sound in H as (a & -> & Ha & ->).
    apply in_range_spec in Ha as (Ea & ? & ?). split; [lia|].
    exists (String a ""). split; [|reflexivity].
    unfold day_texts.
    destruct (Z.ltb_spec (digit a) 10); [|lia].
    rewrite Ea. right. left.
  - apply two_sound in H as (a & b & -> & Hp & ->).
    apply andb_prop in Hp as [Ha Hb].
    apply Ascii.eqb_eq in Ha. subst a.
    apply in_range_spec in Hb as (Eb & ? & ?).
    change (is_digit blank) with false. cbv iota. rewrite Z.add_0_l.
    split; [lia|].
    exists (String blank (String b "")). split; [|reflexivity].
    unfold day_texts.
    destruct (Z.ltb_spec (digit b) 10); [|lia].
    rewrite Eb. right. right. left.
Qed.

Lemma str_app_assoc (a b c : string) :
  ((a ++ b) ++ c)%string = (a ++ (b ++ c))%string.
Proof. induction a as [|x a IH]; simpl; [reflexivity|now rewrite IH]. Qed.

Lemma re_date_sound (s r : string) (y m d : Z) :
  (y, m, d, r) ∈ re_date s ->
  1 <= m <= 12 /\ 1 <= d <= 31 /\ 0 <= y <= 9999 /\
  exists text, text ∈ date_texts y m d /\ s = (text ++ r)%string.
Proof.
  unfold re_date. intros H.
  apply list_elem_of_bind in H as ([y' r0] & H & HY).
  apply list_elem_of_bind in H as (r1 & H & H1).
  apply list_elem_of_bind in H as ([m' r2] & H & HM).
  apply list_elem_of_bind in H as (r3 & H & H3).
  apply list_elem_of_bind in H as ([d' r4] & H & HD).
  apply list_elem_of_singleton in H. injection H as <- <- <- <-.
  apply re_Y_sound in HY as (-> & ?).
  apply re_lit_sound in H1 as ->.
  apply re_m_sound in HM as (? & mt & Hmt & ->).
  apply re_lit_sound in H3 as ->.
  apply re_d_sound in HD as (? & dt & Hdt & ->).
  repeat (split; [assumption|]).
  exists (pad4 y ++ String dash (mt ++ String dash dt))%string. split.
  - unfold date_texts.
    apply list_elem_of_bind. exists mt. split; [|assumption].
    apply list_elem_of_bind. exists dt. split; [|assumption]. left.
  - now rewrite !str_app_assoc; simpl; rewrite !str_app_assoc.
Qed.

Lemma str_app_nil_r (s : string) : (s ++ "")%string = s.
Proof. induction s as [|c s IH]; simpl; [reflexivity|now rewrite IH]. Qed.

Lemma strptime_of_head (s : string) (y m d : Z) :
  hd_error (re_date s) = Some (y, m, d, "") ->
  valid_date y m d = true ->
  strptime (JStr s) = inr (mk_datetime y m d 0 0 0 0).
Proof.
  unfold strptime. destruct (re_date s) as [|[[[y' m'] d'] r] ms]; [discriminate|].
  simpl. intros H V. injection H as -> -> -> ->. now rewrite V.
Qed.

Lemma strptime_sound (s : string) (t : datetime) :
  strptime (JStr s) = inr t -> names_date s (year t) (month t) (day t).
Proof.
  unfold strptime.
  destruct (re_date s) as [|[[[y m] d] r] ms] eqn:E; [discriminate|].
  destruct (String.eqb_spec r "") as [->|]; [|discriminate]. simpl.
  destruct (valid_date y m d) eqn:V; [|discriminate].
  intros H. injection H as <-. simpl. split; [assumption|].
  assert (Hin : (y, m, d, "") ∈ re_date s) by (rewrite E; left).
  apply re_date_sound in Hin as (_ & _ & _ & text & Ht & ->).
  now rewrite str_app_nil_r.
Qed.

Lemma re_Y_pad4 (y : Z) (r : string) :
  0 <= y <= 9999 -> re_Y (pad4 y ++ r) = [(y, r)].
Proof.
  intros H. unfold pad4, pad2. simpl.
  assert (H1 : 0 <= y / 1000 <= 9) by (Z.div_mod_to_equations; lia).
  assert (H2 : 0 <= y / 100 mod 10 <= 9) by (Z.div_mod_to_equations; lia).
  assert (H3 : 0 <= y mod 100 / 10 <= 9) by (Z.div_mod_to_equations; lia).
  assert (H4 : 0 <= (y mod 100) mod 10 <= 9) by (Z.div_mod_to_equations; lia).
  destruct (digit_char_digit _ H1) as [-> ->].
  destruct (digit_char_digit _ H2) as [-> ->].
  destruct (digit_char_digit _ H3) as [-> ->].
  destruct (digit_char_digit _ H4) as [-> ->].
  cbn [andb]. do 2 f_equal. Z.div_mod_to_equations. lia.
Qed.

Lemma valid_date_bounds (y m d : Z) :
  valid_date y m d = true ->
  1 <= y <= 9999 /\ 1 <= m <= 12 /\ 1 <= d <= 31.
Proof.
  unfold valid_date. rewrite !andb_true_iff, !Z.leb_le.
  intros (((((? & ?) & ?) & ?) & ?) & Hd).
  assert (1 <= m <= 12) by lia.
  repeat split; try assumption.
  unfold days_in_month in Hd.
  month_cases m; simpl in Hd; destruct (is_leap y); simpl in Hd; lia.
Qed.

Ltac day_cases d :=
  let H := fresh in
  assert (H : d = 1 \/ d = 2 \/ d = 3 \/ d = 4 \/ d = 5 \/ d = 6 \/ d = 7 \/
              d = 8 \/ d = 9 \/ d = 10 \/ d = 11 \/ d = 12 \/ d = 13 \/
              d = 14 \/ d = 15 \/ d = 16 \/ d = 17 \/ d = 18 \/ d = 19 \/
              d = 20 \/ d = 21 \/ d = 22 \/ d = 23 \/ d = 24 \/ d = 25 \/
              d = 26 \/ d = 27 \/ d = 28 \/ d = 29 \/ d = 30 \/ d = 31)
    by lia;
  repeat (destruct H as [H|H]); subst d.

Ltac pick_text H :=
  repeat (apply elem_of_cons in H as [->|H]); [..|inversion H].

Lemma re_date_texts (y m d : Z) (mt dt : string) :
  0 <= y <= 9999 -> 1 <= m <= 12 -> 1 <= d <= 31 ->
  mt ∈ month_texts m -> dt ∈ day_texts d ->
  hd_error (re_date (pad4 y ++ String dash (mt ++ String dash dt)))
  = Some (y, m, d, "").
Proof.
  intros Hy Hm Hd Hmt Hdt.
  unfold re_date. rewrite re_Y_pad4 by assumption.
  month_cases m; pick_text Hmt; day_cases d; pick_text Hdt;
    vm_compute; reflexivity.
Qed.

(** [strptime] accepts exactly the texts that write an existing date. *)
Lemma strptime_complete (s : string) (y m d : Z) :
  names_date s y m d -> strptime (JStr s) = inr (mk_datetime y m d 0 0 0 0).
Proof.
  intros [V Hs].
  destruct (valid_date_bounds _ _ _ V) as (? & ? & ?).
  unfold date_texts in Hs.
  apply list_elem_of_bind in Hs as (mt & Hs & Hmt).
  apply list_elem_of_bind in Hs as (dt & Hs & Hdt).
  apply list_elem_of_singleton in Hs as ->.
  apply strptime_of_head; [|assumption].
  apply re_date_texts; auto; lia.
Qed.

Lemma strptime_rejects (s : string) :
  (forall y m d, ~ names_date s y m d) -> strptime (JStr s) = inl ValueError.
Proof.
  intros H. destruct (strptime (JStr s)) as [e|t] eqn:E.
  - revert E. unfold strptime.
    destruct (re_date s) as [|[[[y m] d] r] ms]; [congruence|].
    destruct (negb _); [congruence|].
    destruct (valid_date y m d); congruence.
  - apply strptime_sound in E. now apply H in E.
Qed.

Lemma isoformat_names_date (y m d : Z) :
  valid_date y m d = true -> names_date (isoformat y m d) y m d.
Proof.
  intros V. split; [assumption|].
  unfold date_texts, isoformat.
  apply list_elem_of_bind. exists (pad2 m). split; [|left].
  apply list_elem_of_bind. exists (pad2 d). split; left.
Qed.

Section RunFacts.

Variable explorer : list request -> request -> reply.
Variable utcnow : datetime.
Variable api_key : json.
Variable max_age_days : Z.

#[local] Abbreviation run := (loop explorer utcnow api_key max_age_days).

(** What each transaction adds to the findings of a run. *)
Lemma loop_shares (txs : list json) (suspicious out : list finding)
    (log log' : list request) :
  run txs suspicious log = (inr out, log') ->
  exists per_tx : list (list finding),
    out = (suspicious ++ concat per_tx)%list /\
    Forall2 (fun tx new => (length new <= 1)%nat /\ Forall (flags tx) new)
      txs per_tx.
Proof.
  revert suspicious log. induction txs as [|tx txs IH]; intros suspicious log H.
  - apply ret_inr_inv in H as (<- & _).
    exists []. rewrite app_nil_r. split; constructor.
  - simpl in H. apply bind_inr_inv in H as (s1 & l1 & Hb & H).
    apply IH in H as (per_tx & -> & Hall).
    apply loop_body_appends in Hb as [->|(f & -> & Hf)].
    + exists ([] :: per_tx). split; [reflexivity|].
      constructor; [|assumption]. split; [simpl; lia|constructor].
    + exists ([f] :: per_tx). rewrite <- app_assoc. split; [reflexivity|].
      constructor; [|assumption]. split; [simpl; lia|].
      constructor; [assumption|constructor].
Qed.

Lemma shares_length (txs : list json) (per_tx : list (list finding)) :
  Forall2 (fun tx new => (length new <= 1)%nat /\ Forall (flags tx) new)
    txs per_tx ->
  (length (concat per_tx) <= length txs)%nat.
Proof.
  induction 1 as [|tx new txs per_tx [Hn _] _ IH]; simpl; [lia|].
  rewrite length_app. lia.
Qed.

End RunFacts.

Lemma isoformat_is_YYYY_MM_DD (y m d : Z) :
  valid_date y m d = true -> is_YYYY_MM_DD (isoformat y m d) = true.
Proof.
  intros V. destruct (valid_date_bounds _ _ _ V) as (Hy & Hm & Hd).
  unfold is_YYYY_MM_DD, isoformat, pad4, pad2. simpl.
  assert (D : forall k, 0 <= k <= 9 -> is_digit (digit_char k) = true)
    by (intros k Hk; now destruct (digit_char_digit k Hk)).
  rewrite !D by (Z.div_mod_to_equations; lia). reflexivity.
Qed.

(** * The scenarios of the specification *)

(** Scenario A: no transaction, no finding. *)
Example scenario_empty_input :
  detect_suspicious_contracts Demo.explorer Demo.utcnow (JArr []) Demo.api_key
    7 []
  = (inr [], []).
Proof. reflexivity. Qed.

(** Scenario B: a plain transfer makes no lookup and no finding. *)
Example scenario_plain_transfer :
  detect_suspicious_contracts Demo.explorer Demo.utcnow
    (JArr [JObj Demo.transfer]) Demo.api_key 7 []
  = (inr [], []).
Proof. reflexivity. Qed.

(** Scenario C: an unverified contract updated five days ago is flagged. *)
Example scenario_recent_unverified :
  detect_suspicious_contracts Demo.explorer Demo.utcnow
    (JArr [JObj Demo.recent]) Demo.api_key 7 []
  = (inr [mk_finding (JStr "0xAAA") (JStr "0xa9059cbb") 5 (JStr "0xh1")],
     [Demo.lookup "0xAAA"]).
Proof. reflexivity. Qed.

(** Scenario D: the same thirty days later is not. *)
Example scenario_old_unverified :
  detect_suspicious_contracts Demo.explorer Demo.utcnow
    (JArr [JObj Demo.old]) Demo.api_key 7 []
  = (inr [], [Demo.lookup "0xBBB"]).
Proof. reflexivity. Qed.

(** Scenario E: a verified contract is not flagged. *)
Example scenario_verified :
  detect_suspicious_contracts Demo.explorer Demo.utcnow
    (JArr [JObj Demo.verified]) Demo.api_key 7 []
  = (inr [], [Demo.lookup "0xCCC"]).
Proof. reflexivity. Qed.

(** Scenario F: an empty result list for a candidate ends the run. *)
Example scenario_empty_result :
  detect_suspicious_contracts Demo.explorer Demo.utcnow
    (JArr [JObj Demo.recent; JObj Demo.unknown]) Demo.api_key 7 []
  = (inl IndexError, [Demo.lookup "0xAAA"; Demo.lookup "0x000"]).
Proof. reflexivity. Qed.

(** The whole pipeline on the sample wallet. *)
Example scenario_wallet :
  (let! txs := fetch_transactions Demo.explorer (JStr "0xWALLET") Demo.api_key in
   detect_suspicious_contracts Demo.explorer Demo.utcnow txs Demo.api_key 7) []
  = (inr [mk_finding (JStr "0xAAA") (JStr "0xa9059cbb") 5 (JStr "0xh1");
          mk_finding (JStr "0xAAA") (JStr "0xa905") 5 (JStr "0xh8")],
     [mk_request ETHERSCAN_API_URL
        (txlist_params (JStr "0xWALLET") Demo.api_key);
      Demo.lookup "0xAAA"; Demo.lookup "0xBBB"; Demo.lookup "0xCCC";
      Demo.lookup "0xAAA"]).
Proof. reflexivity. Qed.

(** An error message in place of the transactions is iterated character by
    character, and the first subscript fails. *)
Example scenario_error_message :
  (let! txs := fetch_transactions Demo.explorer (JStr "0xWALLET") (JStr "WRONG") in
   detect_suspicious_contracts Demo.explorer Demo.utcnow txs Demo.api_key 7) []
  = (inl TypeError,
     [mk_request ETHERSCAN_API_URL
        (txlist_params (JStr "0xWALLET") (JStr "WRONG"))]).
Proof. reflexivity. Qed.

Example strptime_samples :
  map (fun s => strptime (JStr s))
    ["2024-01-05"; "2024-1-5"; "2024-01- 5"; "2024-02-29"; "2023-02-29";
     "0000-01-01"; "2024-13-01"; "2024-01-32"; "24-01-05"; "05/01/2024"; ""]
  = [inr (mk_datetime 2024 1 5 0 0 0 0); inr (mk_datetime 2024 1 5 0 0 0 0);
     inr (mk_datetime 2024 1 5 0 0 0 0); inr (mk_datetime 2024 2 29 0 0 0 0);
     inl ValueError; inl ValueError; inl ValueError; inl ValueError;
     inl ValueError; inl ValueError; inl ValueError].
Proof. reflexivity. Qed.

Example toordinal_samples :
  map toordinal [mk_datetime 1 1 1 0 0 0 0; mk_datetime 2024 1 5 0 0 0 0;
                 mk_datetime 9999 12 31 0 0 0 0]
  = [1; 738890; 3652059].
Proof. reflexivity. Qed.

Example str_strip_samples :
  map str_strip [" a b  "; "   "; ""; "x"] = ["a b"; ""; ""; "x"].
Proof. reflexivity. Qed.

(** * The claims of the specification *)

(** C1. A candidate transaction whose contract has no source code (empty
    once trimmed) and a date that parses gets exactly one finding when the
    computed age is at most [max_age_days], and none when it is more; the
    finding holds the recipient, the first ten characters of the input
    payload, the age and the hash of the transaction. *)
Theorem unverified_flagged_within_age
    (explorer : list request -> request -> reply) (utcnow : datetime)
    (api_key : json) (max_age_days : Z) (o info : list (string * json))
    (to h : json) (payload src : string) (created_date : datetime)
    (suspicious : list finding) (log : list request) :
  candidate o to payload ->
  dict_get "hash" o = Some h ->
  looked_up explorer log to api_key info ->
  field "SourceCode" info = JStr src ->
  str_strip src = "" ->
  strptime (field "LastUpdated" info) = inr created_date ->
  let age_days := age_of utcnow created_date in
  let f := mk_finding to (JStr (substring 0 10 payload)) age_days h in
  let log' := (log ++ [lookup_request to api_key])%list in
  (age_days <= max_age_days ->
   loop_body explorer utcnow api_key max_age_days (JObj o) suspicious log
   = (inr (suspicious ++ [f])%list, log') /\
   detect_suspicious_contracts explorer utcnow (JArr [JObj o]) api_key
     max_age_days log
   = (inr [f], log')) /\
  (age_days > max_age_days ->
   loop_body explorer utcnow api_key max_age_days (JObj o) suspicious log
   = (inr suspicious, log') /\
   detect_suspicious_contracts explorer utcnow (JArr [JObj o]) api_key
     max_age_days log
   = (inr [], log')).
Proof.
  intros Hc Hh Hl Hsrc Hstrip Hdate age_days f log'.
  pose proof (fun s => loop_body_unverified explorer utcnow api_key
                max_age_days o info to h payload src created_date s log
                Hc Hh Hl Hsrc Hstrip Hdate) as Hbody.
  fold age_days in Hbody. rewrite str_take_substring in Hbody.
  fold f log' in Hbody.
  split; intros Hage.
  - apply Z.leb_le in Hage.
    split; [now rewrite Hbody, Hage|].
    rewrite detect_list. simpl. unfold bind.
    now rewrite Hbody, Hage.
  - assert (Hgt : (age_days <=? max_age_days) = false) by (apply Z.leb_gt; lia).
    split; [now rewrite Hbody, Hgt|].
    rewrite detect_list. simpl. unfold bind.
    now rewrite Hbody, Hgt.
Qed.

Lemma unverified_flagged_within_age_witness :
  detect_suspicious_contracts Demo.explorer Demo.utcnow
    (JArr [JObj Demo.recent]) Demo.api_key 7 []
  = (inr [mk_finding (JStr "0xAAA") (JStr "0xa9059cbb") 5 (JStr "0xh1")],
     [Demo.lookup "0xAAA"]).
Proof.
  refine (proj2 (proj1 (unverified_flagged_within_age Demo.explorer
    Demo.utcnow Demo.api_key 7 Demo.recent (Demo.contract "" "2024-01-05")
    (JStr "0xAAA") (JStr "0xh1") "0xa9059cbb0000000000000000" ""
    (mk_datetime 2024 1 5 0 0 0 0) [] [] _ _ _ _ _ _) _)).
  - repeat split; try reflexivity; discriminate.
  - reflexivity.
  - eexists _, _. split; reflexivity.
  - reflexivity.
  - reflexivity.
  - reflexivity.
  - vm_compute. discriminate.
Defined.

(** C2. A transaction whose recipient is absent or null, or whose input
    payload is absent, empty or exactly ["0x"], makes no lookup and adds no
    finding: the round leaves the log and [suspicious] as they were (or, when
    the key ["to"] is absent, ends with [KeyError], again without lookup or
    finding); with a recipient key, the run is the run without that
    transaction. *)
Theorem skipped_without_lookup_or_finding
    (explorer : list request -> request -> reply) (utcnow : datetime)
    (api_key : json) (max_age_days : Z) (o : list (string * json))
    (suspicious : list finding) (log : list request) :
  skipped o ->
  loop_body explorer utcnow api_key max_age_days (JObj o) suspicious log
  = (match dict_get "to" o with
     | Some _ => inr suspicious
     | None => inl KeyError
     end, log) /\
  (forall to pre post,
     dict_get "to" o = Some to ->
     detect_suspicious_contracts explorer utcnow (JArr (pre ++ JObj o :: post))
       api_key max_age_days log
     = detect_suspicious_contracts explorer utcnow (JArr (pre ++ post))
         api_key max_age_days log).
Proof.
  intros Hs. split.
  - now apply loop_body_skipped.
  - intros to pre post Hto. rewrite !detect_list.
    now apply loop_skip with to.
Qed.

Lemma skipped_without_lookup_or_finding_witness :
  loop_body Demo.explorer Demo.utcnow Demo.api_key 7 (JObj Demo.transfer)
    [] []
  = (inr [], []).
Proof.
  refine (proj1 (skipped_without_lookup_or_finding Demo.explorer Demo.utcnow
    Demo.api_key 7 Demo.transfer [] [] _)).
  do 4 right. reflexivity.
Defined.

(** C3. A candidate transaction whose contract has source code that is not
    empty once trimmed adds no finding, whatever the date of the contract,
    the clock and [max_age_days]. *)
Theorem verified_never_flagged
    (explorer : list request -> request -> reply) (utcnow : datetime)
    (api_key : json) (max_age_days : Z) (o info : list (string * json))
    (to : json) (payload src : string)
    (suspicious : list finding) (log : list request) :
  candidate o to payload ->
  looked_up explorer log to api_key info ->
  field "SourceCode" info = JStr src ->
  str_strip src <> "" ->
  loop_body explorer utcnow api_key max_age_days (JObj o) suspicious log
  = (inr suspicious, (log ++ [lookup_request to api_key])%list) /\
  detect_suspicious_contracts explorer utcnow (JArr [JObj o]) api_key
    max_age_days log
  = (inr [], (log ++ [lookup_request to api_key])%list).
Proof.
  intros Hc Hl Hsrc Hstrip.
  pose proof (fun s => loop_body_verified explorer utcnow api_key max_age_days
                o info to payload src s log Hc Hl Hsrc Hstrip) as Hbody.
  split; [apply Hbody|].
  rewrite detect_list. simpl. unfold bind. now rewrite Hbody.
Qed.

Lemma verified_never_flagged_witness :
  detect_suspicious_contracts Demo.explorer Demo.utcnow
    (JArr [JObj Demo.verified]) Demo.api_key 7 []
  = (inr [], [Demo.lookup "0xCCC"]).
Proof.
  refine (proj2 (verified_never_flagged Demo.explorer Demo.utcnow
    Demo.api_key 7 Demo.verified
    (Demo.contract "pragma solidity ^0.8.0; contract X {}" "2024-01-09")
    (JStr "0xCCC") "0xa9059cbb0000000000000000"
    "pragma solidity ^0.8.0; contract X {}" [] [] _ _ _ _)).
  - repeat split; try reflexivity; discriminate.
  - eexists _, _. split; reflexivity.
  - reflexivity.
  - vm_compute. discriminate.
Defined.

(** C4 as stated does not hold: an error that the explorer reports as a
    message in the result field comes back as that message, not as an empty
    sequence. *)
Lemma error_message_is_returned :
  fst (fetch_transactions Demo.explorer (JStr "0xWALLET") (JStr "WRONG") [])
  = inr (JStr "Invalid API Key") /\
  fst (fetch_transactions Demo.explorer (JStr "0xWALLET") (JStr "WRONG") [])
  <> inr (JArr []).
Proof. split; [reflexivity|discriminate]. Qed.

(** C4, amended. When the explorer answers with a JSON object,
    [fetch_transactions] does not fail: it returns an empty sequence when the
    result field is missing, and the result field as it is when present (an
    empty list when the explorer found no transaction). *)
Theorem fetch_transactions_result
    (explorer : list request -> request -> reply) (address api_key : json)
    (log : list request) (body : list (string * json)) :
  let rq := mk_request ETHERSCAN_API_URL (txlist_params address api_key) in
  explorer log rq = Reply (Some (JObj body)) ->
  (dict_get "result" body = None ->
   fetch_transactions explorer address api_key log
   = (inr (JArr []), (log ++ [rq])%list)) /\
  (forall r, dict_get "result" body = Some r ->
   fetch_transactions explorer address api_key log
   = (inr r, (log ++ [rq])%list)).
Proof.
  intros rq H.
  assert (E : fetch_transactions explorer address api_key log
              = (inr (match dict_get "result" body with
                      | Some r => r
                      | None => JArr []
                      end), (log ++ [rq])%list)).
  { unfold fetch_transactions, bind, requests_get. fold rq. now rewrite H. }
  split; [intros Hr|intros r Hr]; now rewrite E, Hr.
Qed.

Lemma fetch_transactions_result_witness :
  fetch_transactions Demo.explorer (JStr "0xNOBODY") Demo.api_key []
  = (inr (JArr []),
     [mk_request ETHERSCAN_API_URL
        (txlist_params (JStr "0xNOBODY") Demo.api_key)]).
Proof.
  refine (proj2 (fetch_transactions_result Demo.explorer (JStr "0xNOBODY")
    Demo.api_key [] (Demo.answer "0" "No transactions found" (JArr [])) _)
    (JArr []) _); reflexivity.
Defined.

(** C5. When the explorer returns an empty result list for a contract
    address, [fetch_contract_info] ends with [IndexError]; nothing catches
    it, so a run that reaches a candidate transaction to that address ends
    with it, and returns no findings. *)
Theorem empty_result_aborts_run
    (explorer : list request -> request -> reply) (utcnow : datetime)
    (api_key : json) (max_age_days : Z) (contract_address : json)
    (body : list (string * json)) :
  (forall log, explorer log (lookup_request contract_address api_key)
               = Reply (Some (JObj body))) ->
  dict_get "result" body = Some (JArr []) ->
  (forall log,
     fetch_contract_info explorer contract_address api_key log
     = (inl IndexError, (log ++ [lookup_request contract_address api_key])%list))
  /\
  (forall o payload pre post log,
     candidate o contract_address payload ->
     fst (detect_suspicious_contracts explorer utcnow
            (JArr (pre ++ JObj o :: post)) api_key max_age_days log)
     = match fst (detect_suspicious_contracts explorer utcnow (JArr pre)
                    api_key max_age_days log) with
       | inl e => inl e
       | inr _ => inl IndexError
       end).
Proof.
  intros Hex Hres.
  assert (Hf : forall log,
             fetch_contract_info explorer contract_address api_key log
             = (inl IndexError,
                (log ++ [lookup_request contract_address api_key])%list)).
  { intros log. now rewrite (fetch_contract_info_reply _ _ _ _ _ (Hex log)), Hres. }
  split; [exact Hf|].
  intros o payload pre post log Hc.
  rewrite !detect_list, loop_abort.
  destruct (loop explorer utcnow api_key max_age_days pre [] log)
    as [[e|s] l]; [reflexivity|]. simpl.
  destruct (candidate_passes _ _ _ Hc) as (Hto & Hin & Hgo).
  unfold loop_body.
  rewrite (bind_lift_inr _ _ _ _ Hto), (bind_lift_inr _ _ _ _ Hin), Hgo.
  now rewrite (bind_inl _ _ _ _ _ (Hf l)).
Qed.

Lemma empty_result_aborts_run_witness :
  fst (detect_suspicious_contracts Demo.explorer Demo.utcnow
         (JArr [JObj Demo.recent; JObj Demo.unknown; JObj Demo.recent])
         Demo.api_key 7 [])
  = inl IndexError.
Proof.
  refine (proj2 (empty_result_aborts_run Demo.explorer Demo.utcnow
    Demo.api_key 7 (JStr "0x000") (Demo.answer "0" "NOTOK" (JArr [])) _ _)
    Demo.unknown "0xa9059cbb0000000000000000" [JObj Demo.recent] [JObj Demo.recent] [] _).
  - reflexivity.
  - reflexivity.
  - repeat split; try reflexivity; discriminate.
Defined.

(** C6 as stated does not hold: ["2024-1-5"] is not in the format
    YYYY-MM-DD, yet [strptime] reads it, and the run ends normally with a
    finding. *)
Lemma one_digit_date_is_read :
  is_YYYY_MM_DD "2024-1-5" = false /\
  detect_suspicious_contracts Demo.explorer Demo.utcnow
    (JArr [JObj Demo.one_digit]) Demo.api_key 7 []
  = (inr [mk_finding (JStr "0xDDD") (JStr "0xa9059cbb") 5 (JStr "0xh4")],
     [Demo.lookup "0xDDD"]).
Proof. split; reflexivity. Qed.

(** C6, amended. For a candidate transaction whose contract is unverified
    and whose last-updated text, a text of code points below 256 (where the
    decimal digits are the characters 0 to 9), is empty, missing, or
    anything but a way of writing an existing date (year in four digits,
    month and day in two digits or in one, the day also as a blank and a
    digit), the date parse ends with [ValueError]; nothing catches it, so
    the run ends with it and returns no findings, those of the earlier
    transactions included.  Texts with characters beyond code point 255
    are not covered. *)
Theorem unreadable_date_aborts_run
    (explorer : list request -> request -> reply) (utcnow : datetime)
    (api_key : json) (max_age_days : Z) (o info : list (string * json))
    (to : json) (payload src created : string)
    (pre post : list json) (log : list request) :
  candidate o to payload ->
  (forall l, looked_up explorer l to api_key info) ->
  field "SourceCode" info = JStr src ->
  str_strip src = "" ->
  field "LastUpdated" info = JStr created ->
  (forall y m d, ~ names_date created y m d) ->
  fst (detect_suspicious_contracts explorer utcnow
         (JArr (pre ++ JObj o :: post)) api_key max_age_days log)
  = match fst (detect_suspicious_contracts explorer utcnow (JArr pre)
                 api_key max_age_days log) with
    | inl e => inl e
    | inr _ => inl ValueError
    end.
Proof.
  intros Hc Hl Hsrc Hstrip Hcreated Hbad.
  rewrite !detect_list, loop_abort.
  destruct (loop explorer utcnow api_key max_age_days pre [] log)
    as [[e|s] l]; [reflexivity|]. simpl.
  specialize (Hl l). enter_body Hc Hl.
  rewrite Hsrc, Hcreated.
  assert (Hunv : (if negb (truthy (JStr src)) then ret true
                  else let! stripped := lift (strip (JStr src)) in
                       ret (eq_str stripped ""))
                 (l ++ [lookup_request to api_key])%list
                 = (inr true, (l ++ [lookup_request to api_key])%list)).
  { destruct (negb (truthy (JStr src))); [reflexivity|].
    unfold bind; simpl. now rewrite Hstrip. }
  rewrite (bind_inr _ _ _ _ _ Hunv).
  now rewrite (bind_lift_inl _ _ _ _ (strptime_rejects _ Hbad)).
Qed.

Lemma unreadable_date_aborts_run_witness :
  fst (detect_suspicious_contracts Demo.explorer Demo.utcnow
         (JArr [JObj Demo.recent; JObj Demo.undated; JObj Demo.recent])
         Demo.api_key 7 [])
  = inl ValueError.
Proof.
  refine (unreadable_date_aborts_run Demo.explorer Demo.utcnow Demo.api_key 7
    Demo.undated (Demo.contract "" "") (JStr "0xFFF") "0xa9059cbb0000000000000000" "" ""
    [JObj Demo.recent] [JObj Demo.recent] [] _ _ _ _ _ _).
  - repeat split; try reflexivity; discriminate.
  - intros l. eexists _, _. split; reflexivity.
  - reflexivity.
  - reflexivity.
  - reflexivity.
  - intros y m d Hn. apply strptime_complete in Hn. discriminate Hn.
Defined.

(** C7. The findings of a run follow the order of the transactions: they
    come one by one from a subsequence of the input, each made from the
    recipient, the input and the hash of its transaction. *)
Theorem findings_keep_input_order
    (explorer : list request -> request -> reply) (utcnow : datetime)
    (api_key : json) (max_age_days : Z) (txs : list json)
    (findings : list finding) (log log' : list request) :
  detect_suspicious_contracts explorer utcnow (JArr txs) api_key max_age_days
    log
  = (inr findings, log') ->
  exists qualifying,
    sublist qualifying txs /\ Forall2 flags qualifying findings.
Proof.
  rewrite detect_list. intros H.
  apply loop_flags in H as (qs & fs & -> & Hsub & Hfl).
  now exists qs.
Qed.

Lemma findings_keep_input_order_witness :
  exists qualifying,
    sublist qualifying Demo.history /\
    Forall2 flags qualifying
      [mk_finding (JStr "0xAAA") (JStr "0xa9059cbb") 5 (JStr "0xh1");
       mk_finding (JStr "0xAAA") (JStr "0xa905") 5 (JStr "0xh8")].
Proof.
  refine (findings_keep_input_order Demo.explorer Demo.utcnow Demo.api_key 7
    Demo.history _ [] _ _).
  reflexivity.
Defined.

(** C8. Each transaction adds at most one finding: the findings of a run
    split into one share per transaction, in order, every share empty or a
    single finding made from that transaction; so there are never more
    findings than transactions. *)
Theorem at_most_one_finding_each
    (explorer : list request -> request -> reply) (utcnow : datetime)
    (api_key : json) (max_age_days : Z) (txs : list json)
    (findings : list finding) (log log' : list request) :
  detect_suspicious_contracts explorer utcnow (JArr txs) api_key max_age_days
    log
  = (inr findings, log') ->
  (exists per_tx : list (list finding),
     findings = concat per_tx /\
     Forall2 (fun tx new => (length new <= 1)%nat /\ Forall (flags tx) new)
       txs per_tx) /\
  (length findings <= length txs)%nat.
Proof.
  rewrite detect_list. intros H.
  apply loop_shares in H as (per_tx & -> & Hall). simpl.
  split; [now exists per_tx|].
  now apply shares_length.
Qed.

Lemma at_most_one_finding_each_witness :
  (length [mk_finding (JStr "0xAAA") (JStr "0xa9059cbb") 5 (JStr "0xh1");
           mk_finding (JStr "0xAAA") (JStr "0xa905") 5 (JStr "0xh8")]
   <= length Demo.history)%nat.
Proof.
  refine (proj2 (at_most_one_finding_each Demo.explorer Demo.utcnow
    Demo.api_key 7 Demo.history _ [] _ _)).
  reflexivity.
Defined.

(** C9. For a candidate transaction whose contract is unverified and whose
    last-updated text writes a date after the reading of the clock, the
    computed age is negative, and a finding with that age is added for
    every [max_age_days] that is not negative. *)
Theorem future_date_is_flagged
    (explorer : list request -> request -> reply) (utcnow : datetime)
    (api_key : json) (max_age_days : Z) (o info : list (string * json))
    (to h : json) (payload src created : string) (y m d : Z)
    (suspicious : list finding) (log : list request) :
  candidate o to payload ->
  dict_get "hash" o = Some h ->
  looked_up explorer log to api_key info ->
  field "SourceCode" info = JStr src ->
  str_strip src = "" ->
  field "LastUpdated" info = JStr created ->
  names_date created y m d ->
  valid_datetime utcnow = true ->
  datetime_lt utcnow (mk_datetime y m d 0 0 0 0) = true ->
  0 <= max_age_days ->
  let age_days := toordinal utcnow - ymd2ord y m d in
  age_days < 0 /\
  loop_body explorer utcnow api_key max_age_days (JObj o) suspicious log
  = (inr (suspicious
          ++ [mk_finding to (JStr (substring 0 10 payload)) age_days h])%list,
     (log ++ [lookup_request to api_key])%list).
Proof.
  intros Hc Hh Hl Hsrc Hstrip Hcreated Hn Hnow Hlt Hmax age_days.
  pose proof (strptime_complete _ _ _ _ Hn) as Hp.
  pose proof (age_of_future _ _ _ Hnow Hp Hlt) as Hneg.
  pose proof (age_of_midnight utcnow (mk_datetime y m d 0 0 0 0) Hnow
                eq_refl eq_refl eq_refl eq_refl) as Hage.
  change (toordinal (mk_datetime y m d 0 0 0 0)) with (ymd2ord y m d) in Hage.
  fold age_days in Hage. rewrite Hage in Hneg.
  split; [assumption|].
  rewrite <- Hcreated in Hp.
  rewrite (loop_body_unverified explorer utcnow api_key max_age_days o info
             to h payload src _ suspicious log Hc Hh Hl Hsrc Hstrip Hp).
  rewrite Hage, str_take_substring.
  assert (E : (age_days <=? max_age_days) = true) by (apply Z.leb_le; lia).
  now rewrite E.
Qed.

Lemma future_date_is_flagged_witness :
  -1 < 0 /\
  loop_body Demo.explorer Demo.utcnow Demo.api_key 0 (JObj Demo.future) [] []
  = (inr [mk_finding (JStr "0xEEE") (JStr "0xa9059cbb") (-1) (JStr "0xh5")],
     [Demo.lookup "0xEEE"]).
Proof.
  refine (future_date_is_flagged Demo.explorer Demo.utcnow Demo.api_key 0
    Demo.future (Demo.contract "" "2024-01-11") (JStr "0xEEE") (JStr "0xh5")
    "0xa9059cbb0000000000000000" "" "2024-01-11" 2024 1 11 [] [] _ _ _ _ _ _ _ _ _ _).
  - repeat split; try reflexivity; discriminate.
  - reflexivity.
  - eexists _, _. split; reflexivity.
  - reflexivity.
  - reflexivity.
  - reflexivity.
  - split; [reflexivity|]. left.
  - reflexivity.
  - reflexivity.
  - lia.
Defined.

(** C10. When the input payload of a flagged candidate has fewer than ten
    characters, the method of the finding is the whole payload. *)
Theorem short_payload_kept_whole
    (explorer : list request -> request -> reply) (utcnow : datetime)
    (api_key : json) (max_age_days : Z) (o info : list (string * json))
    (to h : json) (payload src : string) (created_date : datetime)
    (suspicious : list finding) (log : list request) :
  candidate o to payload ->
  (String.length payload < 10)%nat ->
  dict_get "hash" o = Some h ->
  looked_up explorer log to api_key info ->
  field "SourceCode" info = JStr src ->
  str_strip src = "" ->
  strptime (field "LastUpdated" info) = inr created_date ->
  age_of utcnow created_date <= max_age_days ->
  slice_to 10 (JStr payload) = inr (JStr payload) /\
  loop_body explorer utcnow api_key max_age_days (JObj o) suspicious log
  = (inr (suspicious
          ++ [mk_finding to (JStr payload) (age_of utcnow created_date) h])%list,
     (log ++ [lookup_request to api_key])%list).
Proof.
  intros Hc Hlen Hh Hl Hsrc Hstrip Hdate Hage.
  assert (Ht : str_take 10 payload = payload) by (apply str_take_all; lia).
  split; [unfold slice_to; now rewrite Ht|].
  rewrite (loop_body_unverified explorer utcnow api_key max_age_days o info
             to h payload src _ suspicious log Hc Hh Hl Hsrc Hstrip Hdate).
  apply Z.leb_le in Hage. now rewrite Hage, Ht.
Qed.

Lemma short_payload_kept_whole_witness :
  slice_to 10 (JStr "0xa905") = inr (JStr "0xa905") /\
  loop_body Demo.explorer Demo.utcnow Demo.api_key 7 (JObj Demo.short) [] []
  = (inr [mk_finding (JStr "0xAAA") (JStr "0xa905") 5 (JStr "0xh8")],
     [Demo.lookup "0xAAA"]).
Proof.
  refine (short_payload_kept_whole Demo.explorer Demo.utcnow Demo.api_key 7
    Demo.short (Demo.contract "" "2024-01-05") (JStr "0xAAA") (JStr "0xh8")
    "0xa905" "" (mk_datetime 2024 1 5 0 0 0 0) [] [] _ _ _ _ _ _ _ _).
  - repeat split; try reflexivity; discriminate.
  - simpl. lia.
  - reflexivity.
  - eexists _, _. split; reflexivity.
  - reflexivity.
  - reflexivity.
  - reflexivity.
  - vm_compute. discriminate.
Defined.

(** * Further properties of the script *)

(** ** What one round asks and adds *)

Section Rounds.

Variable explorer : list request -> request -> reply.
Variable utcnow : datetime.
Variable api_key : json.
Variable max_age_days : Z.

#[local] Abbreviation body := (loop_body explorer utcnow api_key max_age_days).
#[local] Abbreviation run := (loop explorer utcnow api_key max_age_days).

(** A lookup is one request, however it ends. *)
Lemma fetch_contract_info_log (to : json) (log : list request) :
  snd (fetch_contract_info explorer to api_key log)
  = (log ++ [lookup_request to api_key])%list.
Proof.
  unfold fetch_contract_info, bind, requests_get.
  fold (lookup_request to api_key).
  destruct (explorer log (lookup_request to api_key)) as [|[j|]];
    try reflexivity.
  simpl. destruct (get j "result" (JArr [])) as [e|r]; [reflexivity|].
  simpl. now destruct (subscript0 r).
Qed.

(** What follows the lookup in a round asks nothing. *)
Lemma after_lookup_log (tx to input_data contract_info : json)
    (suspicious : list finding) (log : list request) :
  snd ((let! source_code := lift (get contract_info "SourceCode" (JStr "")) in
        let! created := lift (get contract_info "LastUpdated" (JStr "")) in
        let! unverified :=
          (if negb (truthy source_code) then ret true
           else let! stripped := lift (strip source_code) in
                ret (eq_str stripped "")) in
        if (unverified : bool) then
          let! created_date := lift (strptime created) in
          let age_days := days (datetime_sub utcnow created_date) in
          if age_days <=? max_age_days then
            let! method := lift (slice_to 10 input_data) in
            let! tx_hash := lift (subscript tx "hash") in
            ret (suspicious ++ [mk_finding to method age_days tx_hash])%list
          else ret suspicious
        else ret suspicious) log)
  = log.
Proof.
  unfold bind, lift, ret, raise.
  repeat (case_match; simpl in *; simplify_eq; try reflexivity).
Qed.

(** The log after a round, however the round ends. *)
Lemma loop_body_log (tx : json) (suspicious : list finding)
    (log : list request) :
  snd (body tx suspicious log)
  = (log ++ (if is_candidate tx
             then [lookup_request (recipient tx) api_key] else []))%list.
Proof.
  unfold loop_body.
  destruct tx as [| | | | |o]; try (simpl; now rewrite app_nil_r).
  assert (Hr : recipient (JObj o) = field "to" o) by reflexivity.
  rewrite Hr. clear Hr. unfold is_candidate, field at 3.
  unfold bind at 1. simpl subscript.
  destruct (dict_get "to" o) as [to|] eqn:Hto;
    [|simpl; now rewrite app_nil_r].
  simpl lift. unfold ret at 1. unfold bind at 1. simpl get. simpl lift.
  unfold ret at 1. fold (field "input" o).
  destruct (truthy to); [|simpl; now rewrite app_nil_r].
  destruct (truthy (field "input" o)); [|simpl; now rewrite app_nil_r].
  destruct (eq_str (field "input" o) "0x"); [simpl; now rewrite app_nil_r|].
  cbn [negb orb andb].
  unfold bind at 1.
  pose proof (fetch_contract_info_log to log) as Hlog.
  destruct (fetch_contract_info explorer to api_key log) as [[e|ci] l] eqn:F.
  - simpl in Hlog. subst l. reflexivity.
  - simpl in Hlog. subst l.
    exact (after_lookup_log (JObj o) to (field "input" o) ci suspicious _).
Qed.

(** A round that ends normally adds nothing, or one finding: that of a
    candidate, with its recipient and an age within the threshold. *)
Lemma loop_body_adds (tx : json) (suspicious out : list finding)
    (log log' : list request) :
  body tx suspicious log = (inr out, log') ->
  out = suspicious \/
  exists f, out = (suspicious ++ [f])%list /\
            f_age_days f <= max_age_days /\
            is_candidate tx = true /\ f_to f = recipient tx.
Proof.
  unfold loop_body. intros H.
  apply bind_inr_inv in H as (to & l1 & Hto & H).
  apply lift_inr_inv in Hto as (Hto & ->).
  apply bind_inr_inv in H as (input_data & l2 & Hin & H).
  apply lift_inr_inv in Hin as (Hin & ->).
  destruct (negb (truthy to) || negb (truthy input_data)
            || eq_str input_data "0x") eqn:Hgo.
  { apply ret_inr_inv in H as (-> & _). now left. }
  apply bind_inr_inv in H as (contract_info & l3 & _ & H).
  apply bind_inr_inv in H as (source_code & l4 & _ & H).
  apply bind_inr_inv in H as (created & l5 & _ & H).
  apply bind_inr_inv in H as (unverified & l6 & _ & H).
  destruct unverified.
  2:{ apply ret_inr_inv in H as (-> & _). now left. }
  apply bind_inr_inv in H as (created_date & l7 & _ & H).
  destruct (_ <=? _) eqn:Hage.
  2:{ apply ret_inr_inv in H as (-> & _). now left. }
  apply bind_inr_inv in H as (method & l8 & _ & H).
  apply bind_inr_inv in H as (tx_hash & l9 & _ & H).
  apply ret_inr_inv in H as (<- & _).
  right. eexists; split; [reflexivity|]. simpl.
  split; [now apply Z.leb_le|].
  destruct tx as [| | | | |o]; try discriminate.
  simpl in Hto, Hin.
  destruct (dict_get "to" o) as [to'|] eqn:Eto; [|discriminate].
  injection Hto as ->. injection Hin as Hin. fold (field "input" o) in Hin.
  subst input_data.
  apply orb_false_elim in Hgo as [Hgo H3].
  apply orb_false_elim in Hgo as [H1 H2].
  apply negb_false_iff in H1, H2.
  split.
  - simpl. now rewrite Eto, H1, H2, H3.
  - simpl. unfold field. now rewrite Eto.
Qed.

Lemma lookups_cons (tx : json) (txs : list json) :
  lookups api_key (tx :: txs)
  = ((if is_candidate tx then [lookup_request (recipient tx) api_key] else [])
     ++ lookups api_key txs)%list.
Proof. reflexivity. Qed.

(** The log of a run that ends normally. *)
Lemma loop_log (txs : list json) (suspicious out : list finding)
    (log log' : list request) :
  run txs suspicious log = (inr out, log') ->
  log' = (log ++ lookups api_key txs)%list.
Proof.
  revert suspicious log. induction txs as [|tx txs IH]; intros suspicious log H.
  - apply ret_inr_inv in H as (_ & ->). simpl. now rewrite app_nil_r.
  - simpl in H. apply bind_inr_inv in H as (s1 & l1 & Hb & H).
    apply IH in H as ->.
    pose proof (loop_body_log tx suspicious log) as Hl.
    rewrite Hb in Hl. simpl in Hl. subst l1.
    now rewrite lookups_cons, app_assoc.
Qed.

(** The log of any run: the lookups of the transactions it went through. *)
Lemma loop_log_any (txs : list json) (suspicious : list finding)
    (log : list request) :
  exists k, (k <= length txs)%nat /\
    snd (run txs suspicious log) = (log ++ lookups api_key (take k txs))%list.
Proof.
  revert suspicious log. induction txs as [|tx txs IH]; intros suspicious log.
  - exists 0%nat. simpl. split; [lia|now rewrite app_nil_r].
  - simpl. unfold bind.
    pose proof (loop_body_log tx suspicious log) as Hl.
    destruct (body tx suspicious log) as [[e|s1] l1]; simpl in Hl; subst l1.
    + exists 1%nat. split; [lia|]. simpl.
      destruct txs; destruct (is_candidate tx); reflexivity.
    + destruct (IH s1 (log ++ (if is_candidate tx
                               then [lookup_request (recipient tx) api_key]
                               else []))%list) as (k & Hk & E).
      exists (S k). split; [simpl; lia|]. rewrite E.
      change (take (S k) (tx :: txs)) with (tx :: take k txs).
      now rewrite lookups_cons, app_assoc.
Qed.

(** The findings of a run that ends normally. *)
Lemma loop_adds (txs : list json) (suspicious out : list finding)
    (log log' : list request) :
  run txs suspicious log = (inr out, log') ->
  exists fs, out = (suspicious ++ fs)%list /\
    Forall (fun f => f_age_days f <= max_age_days /\
                     exists tx, tx ∈ txs /\ is_candidate tx = true /\
                                f_to f = recipient tx) fs.
Proof.
  revert suspicious log. induction txs as [|tx txs IH]; intros suspicious log H.
  - apply ret_inr_inv in H as (<- & _). exists []. rewrite app_nil_r.
    split; [reflexivity|constructor].
  - simpl in H. apply bind_inr_inv in H as (s1 & l1 & Hb & H).
    apply IH in H as (fs & -> & Hall).
    assert (Hall' : Forall (fun f => f_age_days f <= max_age_days /\
                     exists tx', tx' ∈ tx :: txs /\ is_candidate tx' = true /\
                                 f_to f = recipient tx') fs).
    { eapply Forall_impl; [exact Hall|].
      intros f (Ha & tx' & Hin & Hc & Hr). split; [assumption|].
      exists tx'. split; [now right|auto]. }
    apply loop_body_adds in Hb as [->|(f & -> & Ha & Hc & Hr)].
    + now exists fs.
    + exists (f :: fs). rewrite <- app_assoc. split; [reflexivity|].
      constructor; [|assumption]. split; [assumption|].
      exists tx. split; [left|auto].
Qed.

End Rounds.

(** ** Runs in parts, thresholds and clocks *)

Section Parts.

Variable explorer : list request -> request -> reply.
Variable api_key : json.

(** The findings gathered before a round are kept and not looked at. *)
Lemma loop_body_prefix (utcnow : datetime) (max_age_days : Z) (tx : json)
    (suspicious : list finding) (log : list request) :
  loop_body explorer utcnow api_key max_age_days tx suspicious log
  = match loop_body explorer utcnow api_key max_age_days tx [] log with
    | (inr fs, l) => (inr (suspicious ++ fs)%list, l)
    | (inl e, l) => (inl e, l)
    end.
Proof.
  unfold loop_body, bind, lift, ret, raise.
  repeat (case_match; simpl in *; simplify_eq; try reflexivity).
  all: now rewrite app_nil_r.
Qed.

Lemma loop_prefix (utcnow : datetime) (max_age_days : Z) (txs : list json)
    (suspicious : list finding) (log : list request) :
  loop explorer utcnow api_key max_age_days txs suspicious log
  = match loop explorer utcnow api_key max_age_days txs [] log with
    | (inr fs, l) => (inr (suspicious ++ fs)%list, l)
    | (inl e, l) => (inl e, l)
    end.
Proof.
  revert suspicious log. induction txs as [|tx txs IH]; intros suspicious log.
  - simpl. unfold ret. now rewrite app_nil_r.
  - simpl. unfold bind.
    rewrite (loop_body_prefix _ _ tx suspicious).
    destruct (loop_body explorer utcnow api_key max_age_days tx [] log)
      as [[e|fs1] l1]; [reflexivity|].
    rewrite (IH (suspicious ++ fs1)%list), (IH fs1).
    destruct (loop explorer utcnow api_key max_age_days txs [] l1)
      as [[e|fs2] l2]; [reflexivity|].
    now rewrite app_assoc.
Qed.

Ltac leb_facts :=
  repeat match goal with
         | H : (_ <=? _) = true |- _ => apply Z.leb_le in H
         | H : (_ <=? _) = false |- _ => apply Z.leb_gt in H
         end.

(** With a lower threshold a round adds what it added that is within it. *)
Lemma loop_body_threshold (utcnow : datetime) (max1 max2 : Z) (tx : json)
    (fs2 : list finding) (log l : list request) :
  max1 <= max2 ->
  loop_body explorer utcnow api_key max2 tx [] log = (inr fs2, l) ->
  loop_body explorer utcnow api_key max1 tx [] log
  = (inr (List.filter (fun f => f_age_days f <=? max1) fs2), l).
Proof.
  intros Hle. unfold loop_body, bind, lift, ret, raise.
  repeat (case_match; simplify_eq; try (intros; simplify_eq; reflexivity));
    intros; simplify_eq; leb_facts; try lia; cbn [app List.filter f_age_days];
    repeat case_match; leb_facts; try lia; reflexivity.
Qed.

Lemma loop_threshold (utcnow : datetime) (max1 max2 : Z) (txs : list json)
    (fs2 : list finding) (log l : list request) :
  max1 <= max2 ->
  loop explorer utcnow api_key max2 txs [] log = (inr fs2, l) ->
  loop explorer utcnow api_key max1 txs [] log
  = (inr (List.filter (fun f => f_age_days f <=? max1) fs2), l).
Proof.
  intros Hle. revert fs2 log.
  induction txs as [|tx txs IH]; intros fs2 log H.
  - apply ret_inr_inv in H as (<- & <-). reflexivity.
  - simpl in H. apply bind_inr_inv in H as (a2 & l1 & Hb & H).
    rewrite loop_prefix in H.
    destruct (loop explorer utcnow api_key max2 txs [] l1)
      as [[e|b2] l2] eqn:E; [discriminate|].
    injection H as <- <-.
    simpl. unfold bind.
    rewrite (loop_body_threshold _ _ _ _ _ _ _ Hle Hb).
    rewrite loop_prefix, (IH _ _ E).
    now rewrite List.filter_app.
Qed.

(** The clock enters a round through the ages only. *)
Lemma loop_body_clock (now1 now2 : datetime) (max_age_days : Z) (tx : json)
    (suspicious : list finding) (log : list request) :
  (forall v t, strptime v = inr t ->
               days (datetime_sub now1 t) = days (datetime_sub now2 t)) ->
  loop_body explorer now1 api_key max_age_days tx suspicious log
  = loop_body explorer now2 api_key max_age_days tx suspicious log.
Proof.
  intros Hage. unfold loop_body, bind, lift, ret, raise.
  repeat (case_match; simplify_eq; try reflexivity);
    repeat match goal with
           | H : strptime _ = inr _ |- _ => apply Hage in H
           end;
    try congruence.
Qed.

Lemma loop_clock (now1 now2 : datetime) (max_age_days : Z) (txs : list json)
    (suspicious : list finding) (log : list request) :
  (forall v t, strptime v = inr t ->
               days (datetime_sub now1 t) = days (datetime_sub now2 t)) ->
  loop explorer now1 api_key max_age_days txs suspicious log
  = loop explorer now2 api_key max_age_days txs suspicious log.
Proof.
  intros Hage. revert suspicious log.
  induction txs as [|tx txs IH]; intros suspicious log; [reflexivity|].
  simpl. unfold bind. rewrite (loop_body_clock _ _ _ _ _ _ Hage).
  destruct (loop_body explorer now2 api_key max_age_days tx suspicious log)
    as [[e|s] l]; [reflexivity|apply IH].
Qed.

End Parts.

Lemma candidate_recipient_truthy (tx : json) :
  is_candidate tx = true -> truthy (recipient tx) = true.
Proof.
  destruct tx as [| | | | |o]; try discriminate. simpl. unfold field.
  destruct (dict_get "to" o) as [to|]; [|discriminate].
  intros H. apply andb_prop in H as [H _]. now apply andb_prop in H as [H _].
Qed.

Lemma lookups_shape (api_key : json) (txs : list json) :
  Forall (fun rq => url rq = ETHERSCAN_API_URL /\
                    field "action" (params rq) = JStr "getsourcecode" /\
                    field "apikey" (params rq) = api_key)
         (lookups api_key txs).
Proof.
  induction txs as [|tx txs IH]; [constructor|].
  unfold lookups. simpl. fold (lookups api_key txs).
  destruct (is_candidate tx); [|assumption].
  constructor; [|assumption]. repeat split.
Qed.

(** ** The run as a whole *)

(** X1. Every finding of a run that ends normally has an age within the
    threshold and the recipient of a candidate transaction of the input, a
    recipient that is not null or empty. *)
Theorem findings_within_threshold
    (explorer : list request -> request -> reply) (utcnow : datetime)
    (api_key : json) (max_age_days : Z) (txs : list json)
    (findings : list finding) (log log' : list request) :
  detect_suspicious_contracts explorer utcnow (JArr txs) api_key max_age_days
    log
  = (inr findings, log') ->
  Forall (fun f => f_age_days f <= max_age_days /\
                   truthy (f_to f) = true /\
                   exists tx, tx ∈ txs /\ is_candidate tx = true /\
                              f_to f = recipient tx) findings.
Proof.
  rewrite detect_list. intros H.
  apply loop_adds in H as (fs & -> & Hall). simpl.
  eapply Forall_impl; [exact Hall|].
  intros f (Ha & tx & Hin & Hc & Hr). split; [assumption|]. split.
  - rewrite Hr. now apply candidate_recipient_truthy.
  - now exists tx.
Qed.

Lemma findings_within_threshold_witness :
  Forall (fun f => f_age_days f <= 7 /\
                   truthy (f_to f) = true /\
                   exists tx, tx ∈ Demo.history /\ is_candidate tx = true /\
                              f_to f = recipient tx)
    [mk_finding (JStr "0xAAA") (JStr "0xa9059cbb") 5 (JStr "0xh1");
     mk_finding (JStr "0xAAA") (JStr "0xa905") 5 (JStr "0xh8")].
Proof.
  refine (findings_within_threshold Demo.explorer Demo.utcnow Demo.api_key 7
    Demo.history _ [] _ _).
  reflexivity.
Defined.

(** X2. Nothing is cached: a run that ends normally has made one lookup
    for each candidate transaction, in the order of the input, a recipient
    that comes twice being looked up twice; and no other request. *)
Theorem one_lookup_per_candidate
    (explorer : list request -> request -> reply) (utcnow : datetime)
    (api_key : json) (max_age_days : Z) (txs : list json)
    (findings : list finding) (log log' : list request) :
  detect_suspicious_contracts explorer utcnow (JArr txs) api_key max_age_days
    log
  = (inr findings, log') ->
  log' = (log ++ lookups api_key txs)%list.
Proof. rewrite detect_list. apply loop_log. Qed.

Lemma one_lookup_per_candidate_witness :
  [Demo.lookup "0xAAA"; Demo.lookup "0xBBB"; Demo.lookup "0xCCC";
   Demo.lookup "0xAAA"]
  = ([] ++ lookups Demo.api_key Demo.history)%list.
Proof.
  refine (one_lookup_per_candidate Demo.explorer Demo.utcnow Demo.api_key 7
    Demo.history _ [] _ _).
  reflexivity.
Defined.

(** X3. However a run ends, it has only added to the log the lookups of
    the candidates among the first transactions of the input: requests for
    the source code, with the key it was given, at most one per
    transaction. *)
Theorem only_lookups_are_made
    (explorer : list request -> request -> reply) (utcnow : datetime)
    (api_key : json) (max_age_days : Z) (txs : list json)
    (log : list request) :
  exists k,
    (k <= length txs)%nat /\
    snd (detect_suspicious_contracts explorer utcnow (JArr txs) api_key
           max_age_days log)
    = (log ++ lookups api_key (take k txs))%list /\
    (length (lookups api_key (take k txs)) <= length txs)%nat /\
    Forall (fun rq => url rq = ETHERSCAN_API_URL /\
                      field "action" (params rq) = JStr "getsourcecode" /\
                      field "apikey" (params rq) = api_key)
           (lookups api_key (take k txs)).
Proof.
  rewrite detect_list.
  destruct (loop_log_any explorer utcnow api_key max_age_days txs [] log)
    as (k & Hk & E).
  exists k. repeat split; try assumption; [|apply lookups_shape].
  transitivity (length (take k txs)); [|rewrite length_take; lia].
  clear. induction (take k txs) as [|tx l IH]; [reflexivity|].
  unfold lookups. simpl. fold (lookups api_key l).
  destruct (is_candidate tx); simpl; lia.
Qed.

(** X4. Lowering the threshold only removes findings: when the run with
    [max2] ends normally, so does the run with a lower [max1], with the same
    lookups, and its findings are those of the first run whose age is at
    most [max1]. *)
Theorem lower_threshold_filters
    (explorer : list request -> request -> reply) (utcnow : datetime)
    (api_key : json) (max1 max2 : Z) (txs : list json)
    (findings : list finding) (log log' : list request) :
  max1 <= max2 ->
  detect_suspicious_contracts explorer utcnow (JArr txs) api_key max2 log
  = (inr findings, log') ->
  detect_suspicious_contracts explorer utcnow (JArr txs) api_key max1 log
  = (inr (List.filter (fun f => f_age_days f <=? max1) findings), log').
Proof. rewrite !detect_list. apply loop_threshold. Qed.

Lemma lower_threshold_filters_witness :
  detect_suspicious_contracts Demo.explorer Demo.utcnow
    (JArr [JObj Demo.recent; JObj Demo.old; JObj Demo.future]) Demo.api_key 4 []
  = (inr [mk_finding (JStr "0xEEE") (JStr "0xa9059cbb") (-1) (JStr "0xh5")],
     [Demo.lookup "0xAAA"; Demo.lookup "0xBBB"; Demo.lookup "0xEEE"]).
Proof.
  refine (lower_threshold_filters Demo.explorer Demo.utcnow Demo.api_key 4 30
    [JObj Demo.recent; JObj Demo.old; JObj Demo.future]
    [mk_finding (JStr "0xAAA") (JStr "0xa9059cbb") 5 (JStr "0xh1");
     mk_finding (JStr "0xBBB") (JStr "0xa9059cbb") 30 (JStr "0xh2");
     mk_finding (JStr "0xEEE") (JStr "0xa9059cbb") (-1) (JStr "0xh5")]
    [] _ _ _).
  - lia.
  - reflexivity.
Defined.

(** X5. The time of day of the run does not matter: two readings of the
    clock on the same day give the same outcome, findings and lookups. *)
Theorem time_of_day_is_ignored
    (explorer : list request -> request -> reply) (now1 now2 : datetime)
    (transactions api_key : json) (max_age_days : Z) (log : list request) :
  valid_datetime now1 = true -> valid_datetime now2 = true ->
  year now1 = year now2 -> month now1 = month now2 -> day now1 = day now2 ->
  detect_suspicious_contracts explorer now1 transactions api_key max_age_days
    log
  = detect_suspicious_contracts explorer now2 transactions api_key
      max_age_days log.
Proof.
  intros V1 V2 Hy Hm Hd.
  assert (Hage : forall v t, strptime v = inr t ->
            days (datetime_sub now1 t) = days (datetime_sub now2 t)).
  { intros v t Hp.
    destruct (strptime_inr _ _ Hp) as (_ & H1 & H2 & H3 & H4).
    pose proof (age_of_midnight now1 t V1 H1 H2 H3 H4) as E1.
    pose proof (age_of_midnight now2 t V2 H1 H2 H3 H4) as E2.
    unfold age_of in E1, E2. rewrite E1, E2.
    unfold toordinal. now rewrite Hy, Hm, Hd. }
  unfold detect_suspicious_contracts, bind.
  destruct (lift (iter transactions) log) as [[e|txs] l]; [reflexivity|].
  now apply loop_clock.
Qed.

Lemma time_of_day_is_ignored_witness :
  detect_suspicious_contracts Demo.explorer Demo.utcnow (JArr Demo.history)
    Demo.api_key 7 []
  = detect_suspicious_contracts Demo.explorer Demo2.evening
      (JArr Demo.history) Demo.api_key 7 [].
Proof.
  refine (time_of_day_is_ignored Demo.explorer Demo.utcnow Demo2.evening
    (JArr Demo.history) Demo.api_key 7 [] _ _ _ _ _); reflexivity.
Defined.

(** X6. A run over two lists put end to end is the run over the first
    followed by the run over the second, started with the log the first one
    left: the findings are appended, and an exception in either part ends
    the whole. *)
Theorem run_in_two_parts
    (explorer : list request -> request -> reply) (utcnow : datetime)
    (api_key : json) (max_age_days : Z) (pre post : list json)
    (log : list request) :
  detect_suspicious_contracts explorer utcnow (JArr (pre ++ post)) api_key
    max_age_days log
  = match detect_suspicious_contracts explorer utcnow (JArr pre) api_key
            max_age_days log with
    | (inl e, l) => (inl e, l)
    | (inr fs1, l1) =>
        match detect_suspicious_contracts explorer utcnow (JArr post) api_key
                max_age_days l1 with
        | (inl e, l2) => (inl e, l2)
        | (inr fs2, l2) => (inr (fs1 ++ fs2)%list, l2)
        end
    end.
Proof.
  rewrite !detect_list, loop_app. unfold bind.
  destruct (loop explorer utcnow api_key max_age_days pre [] log)
    as [[e|fs1] l1]; [reflexivity|].
  rewrite detect_list. apply loop_prefix.
Qed.

(** ** Edges of one round *)

(** The test on the source code, when it comes out as unverified. *)
Lemma unverified_test (source_code : json) (l : list request) :
  truthy source_code = false \/
  (exists src, source_code = JStr src /\ str_strip src = "") ->
  (if negb (truthy source_code) then ret true
   else let! stripped := lift (strip source_code) in
        ret (eq_str stripped "")) l
  = (inr true, l).
Proof.
  intros [H|(src & -> & H)].
  - now rewrite H.
  - destruct (negb (truthy (JStr src))); [reflexivity|].
    unfold bind; simpl. now rewrite H.
Qed.

(** X7. A transaction that is not a JSON object ends the run with
    [TypeError] at the subscript ["to"], before any lookup for it. *)
Theorem transaction_not_an_object
    (explorer : list request -> request -> reply) (utcnow : datetime)
    (api_key : json) (max_age_days : Z) (tx : json)
    (suspicious : list finding) (pre post : list json) (log : list request) :
  (forall o, tx <> JObj o) ->
  loop_body explorer utcnow api_key max_age_days tx suspicious log
  = (inl TypeError, log) /\
  fst (detect_suspicious_contracts explorer utcnow (JArr (pre ++ tx :: post))
         api_key max_age_days log)
  = match fst (detect_suspicious_contracts explorer utcnow (JArr pre)
                 api_key max_age_days log) with
    | inl e => inl e
    | inr _ => inl TypeError
    end.
Proof.
  intros Hno.
  assert (Hb : forall s l,
             loop_body explorer utcnow api_key max_age_days tx s l
             = (inl TypeError, l)).
  { intros s l. destruct tx as [| | | | |o]; try reflexivity.
    now destruct (Hno o). }
  split; [apply Hb|].
  rewrite !detect_list, loop_abort.
  destruct (loop explorer utcnow api_key max_age_days pre [] log)
    as [[e|s] l]; [reflexivity|].
  simpl. now rewrite Hb.
Qed.

Lemma transaction_not_an_object_witness :
  fst (detect_suspicious_contracts Demo.explorer Demo.utcnow
         (JArr [JObj Demo.recent; JNull; JObj Demo.recent]) Demo.api_key 7 [])
  = inl TypeError.
Proof.
  refine (proj2 (transaction_not_an_object Demo.explorer Demo.utcnow
    Demo.api_key 7 JNull [] [JObj Demo.recent] [JObj Demo.recent] [] _)).
  intros o. discriminate.
Defined.

(** X8. The hash is read only when a finding is made: a candidate without
    the key ["hash"] ends the round with [KeyError] after its lookup when
    its contract is unverified and within the threshold, and passes
    unnoticed otherwise. *)
Theorem hash_is_read_when_flagged
    (explorer : list request -> request -> reply) (utcnow : datetime)
    (api_key : json) (max_age_days : Z) (o info : list (string * json))
    (to : json) (payload src : string) (created_date : datetime)
    (suspicious : list finding) (log : list request) :
  candidate o to payload ->
  dict_get "hash" o = None ->
  looked_up explorer log to api_key info ->
  field "SourceCode" info = JStr src ->
  str_strip src = "" ->
  strptime (field "LastUpdated" info) = inr created_date ->
  loop_body explorer utcnow api_key max_age_days (JObj o) suspicious log
  = (if age_of utcnow created_date <=? max_age_days
     then inl KeyError else inr suspicious,
     (log ++ [lookup_request to api_key])%list).
Proof.
  intros Hc Hh Hl Hsrc Hstrip Hdate.
  enter_body Hc Hl.
  rewrite (bind_inr _ _ _ _ _
             (unverified_test _ _ (or_intror (ex_intro _ src (conj Hsrc Hstrip))))).
  rewrite (bind_lift_inr _ _ _ _ Hdate).
  fold (age_of utcnow created_date).
  destruct (age_of utcnow created_date <=? max_age_days); [|reflexivity].
  unfold bind; simpl. now rewrite Hh.
Qed.

Lemma hash_is_read_when_flagged_witness :
  loop_body Demo.explorer Demo.utcnow Demo.api_key 7 (JObj Demo2.no_hash) [] []
  = (inl KeyError, [Demo.lookup "0xAAA"]).
Proof.
  refine (hash_is_read_when_flagged Demo.explorer Demo.utcnow Demo.api_key 7
    Demo2.no_hash (Demo.contract "" "2024-01-05") (JStr "0xAAA")
    "0xa9059cbb0000000000000000" "" (mk_datetime 2024 1 5 0 0 0 0) [] []
    _ _ _ _ _ _).
  - repeat split; try reflexivity; discriminate.
  - reflexivity.
  - eexists _, _. split; reflexivity.
  - reflexivity.
  - reflexivity.
  - reflexivity.
Defined.

(** X9. When the explorer puts a message in place of the result list of a
    lookup, [fetch_contract_info] returns the first character of the
    message, and the round ends with [AttributeError] at the first [.get]
    on it. *)
Theorem message_in_place_of_record
    (explorer : list request -> request -> reply) (utcnow : datetime)
    (api_key : json) (max_age_days : Z) (o body : list (string * json))
    (to : json) (payload : string) (c : ascii) (message : string)
    (suspicious : list finding) (log : list request) :
  candidate o to payload ->
  explorer log (lookup_request to api_key) = Reply (Some (JObj body)) ->
  dict_get "result" body = Some (JStr (String c message)) ->
  fetch_contract_info explorer to api_key log
  = (inr (JStr (String c "")), (log ++ [lookup_request to api_key])%list) /\
  loop_body explorer utcnow api_key max_age_days (JObj o) suspicious log
  = (inl AttributeError, (log ++ [lookup_request to api_key])%list).
Proof.
  intros Hc Hr Hres.
  assert (Hf : fetch_contract_info explorer to api_key log
               = (inr (JStr (String c "")),
                  (log ++ [lookup_request to api_key])%list)).
  { now rewrite (fetch_contract_info_reply _ _ _ _ _ Hr), Hres. }
  split; [exact Hf|].
  destruct (candidate_passes _ _ _ Hc) as (Hto & Hin & Hgo).
  unfold loop_body.
  rewrite (bind_lift_inr _ _ _ _ Hto), (bind_lift_inr _ _ _ _ Hin), Hgo.
  now rewrite (bind_inr _ _ _ _ _ Hf).
Qed.

Lemma message_in_place_of_record_witness :
  loop_body Demo2.limited Demo.utcnow Demo.api_key 7 (JObj Demo.recent) [] []
  = (inl AttributeError, [Demo.lookup "0xAAA"]).
Proof.
  refine (proj2 (message_in_place_of_record Demo2.limited Demo.utcnow
    Demo.api_key 7 Demo.recent
    (Demo.answer "0" "NOTOK" (JStr "Max rate limit reached")) (JStr "0xAAA")
    "0xa9059cbb0000000000000000" "M" "ax rate limit reached" [] [] _ _ _)).
  - repeat split; try reflexivity; discriminate.
  - reflexivity.
  - reflexivity.
Defined.

(** X13. A source code that Python takes for true and that is not a string
    (a number, a list, an object) ends the round with [AttributeError] at
    [.strip()]. *)
Theorem source_not_a_string
    (explorer : list request -> request -> reply) (utcnow : datetime)
    (api_key : json) (max_age_days : Z) (o info : list (string * json))
    (to : json) (payload : string)
    (suspicious : list finding) (log : list request) :
  candidate o to payload ->
  looked_up explorer log to api_key info ->
  truthy (field "SourceCode" info) = true ->
  (forall s, field "SourceCode" info <> JStr s) ->
  loop_body explorer utcnow api_key max_age_days (JObj o) suspicious log
  = (inl AttributeError, (log ++ [lookup_request to api_key])%list).
Proof.
  intros Hc Hl Ht Hns.
  enter_body Hc Hl. rewrite Ht.
  destruct (field "SourceCode" info) as [| | |s| |]; try reflexivity.
  now destruct (Hns s).
Qed.

Lemma source_not_a_string_witness :
  loop_body Demo2.odd Demo.utcnow Demo.api_key 7 (JObj Demo.old) [] []
  = (inl AttributeError, [Demo.lookup "0xBBB"]).
Proof.
  refine (source_not_a_string Demo2.odd Demo.utcnow Demo.api_key 7 Demo.old
    [("SourceCode", JNum 1); ("LastUpdated", JStr "2024-01-05")]
    (JStr "0xBBB") "0xa9059cbb0000000000000000" [] [] _ _ _ _).
  - repeat split; try reflexivity; discriminate.
  - eexists _, _. split; reflexivity.
  - reflexivity.
  - intros s. discriminate.
Defined.

(** X14. For an unverified contract a last-updated value that is not a
    string (null, a number) ends the round with [TypeError] at
    [strptime]. *)
Theorem date_not_a_string
    (explorer : list request -> request -> reply) (utcnow : datetime)
    (api_key : json) (max_age_days : Z) (o info : list (string * json))
    (to : json) (payload : string)
    (suspicious : list finding) (log : list request) :
  candidate o to payload ->
  looked_up explorer log to api_key info ->
  truthy (field "SourceCode" info) = false \/
  (exists src, field "SourceCode" info = JStr src /\ str_strip src = "") ->
  (forall s, field "LastUpdated" info <> JStr s) ->
  loop_body explorer utcnow api_key max_age_days (JObj o) suspicious log
  = (inl TypeError, (log ++ [lookup_request to api_key])%list).
Proof.
  intros Hc Hl Hu Hns.
  enter_body Hc Hl.
  rewrite (bind_inr _ _ _ _ _ (unverified_test _ _ Hu)).
  destruct (field "LastUpdated" info) as [| | |s| |]; try reflexivity.
  now destruct (Hns s).
Qed.

Lemma date_not_a_string_witness :
  loop_body Demo2.odd Demo.utcnow Demo.api_key 7 (JObj Demo.verified) [] []
  = (inl TypeError, [Demo.lookup "0xCCC"]).
Proof.
  refine (date_not_a_string Demo2.odd Demo.utcnow Demo.api_key 7 Demo.verified
    [("SourceCode", JStr ""); ("LastUpdated", JNull)]
    (JStr "0xCCC") "0xa9059cbb0000000000000000" [] [] _ _ _ _).
  - repeat split; try reflexivity; discriminate.
  - eexists _, _. split; reflexivity.
  - left. reflexivity.
  - intros s. discriminate.
Defined.

(** X15. A lookup that gets no reply, or a reply that is not JSON, or JSON
    that is not an object, ends the round with the exception of the
    lookup: [RequestException], [JSONDecodeError], [AttributeError]. *)
Theorem failed_lookup_ends_round
    (explorer : list request -> request -> reply) (utcnow : datetime)
    (api_key : json) (max_age_days : Z) (o : list (string * json))
    (to : json) (payload : string)
    (suspicious : list finding) (log : list request) :
  candidate o to payload ->
  (forall body, explorer log (lookup_request to api_key)
                <> Reply (Some (JObj body))) ->
  loop_body explorer utcnow api_key max_age_days (JObj o) suspicious log
  = (match explorer log (lookup_request to api_key) with
     | NoReply => inl RequestException
     | Reply None => inl JSONDecodeError
     | Reply (Some _) => inl AttributeError
     end, (log ++ [lookup_request to api_key])%list).
Proof.
  intros Hc Hno.
  destruct (candidate_passes _ _ _ Hc) as (Hto & Hin & Hgo).
  unfold loop_body.
  rewrite (bind_lift_inr _ _ _ _ Hto), (bind_lift_inr _ _ _ _ Hin), Hgo.
  unfold bind at 1, fetch_contract_info, bind, requests_get.
  fold (lookup_request to api_key).
  destruct (explorer log (lookup_request to api_key)) as [|[j|]];
    try reflexivity.
  destruct j as [| | | | |body]; try reflexivity.
  now destruct (Hno body).
Qed.

Lemma failed_lookup_ends_round_witness :
  loop_body Demo2.offline Demo.utcnow Demo.api_key 7 (JObj Demo.recent) [] []
  = (inl RequestException, [Demo.lookup "0xAAA"]).
Proof.
  refine (failed_lookup_ends_round Demo2.offline Demo.utcnow Demo.api_key 7
    Demo.recent (JStr "0xAAA") "0xa9059cbb0000000000000000" [] [] _ _).
  - repeat split; try reflexivity; discriminate.
  - intros body. discriminate.
Defined.

(** X16. A source code that Python takes for false without being a string
    (null, zero, an empty list) counts as unverified, like the empty
    string. *)
Theorem falsy_source_is_unverified
    (explorer : list request -> request -> reply) (utcnow : datetime)
    (api_key : json) (max_age_days : Z) (o info : list (string * json))
    (to h : json) (payload : string) (created_date : datetime)
    (suspicious : list finding) (log : list request) :
  candidate o to payload ->
  dict_get "hash" o = Some h ->
  looked_up explorer log to api_key info ->
  truthy (field "SourceCode" info) = false ->
  strptime (field "LastUpdated" info) = inr created_date ->
  loop_body explorer utcnow api_key max_age_days (JObj o) suspicious log
  = (inr (if age_of utcnow created_date <=? max_age_days
          then suspicious ++ [mk_finding to (JStr (substring 0 10 payload))
                                (age_of utcnow created_date) h]
          else suspicious)%list,
     (log ++ [lookup_request to api_key])%list).
Proof.
  intros Hc Hh Hl Hf Hdate.
  enter_body Hc Hl.
  rewrite (bind_inr _ _ _ _ _ (unverified_test _ _ (or_introl Hf))).
  rewrite (bind_lift_inr _ _ _ _ Hdate).
  fold (age_of utcnow created_date).
  destruct (age_of utcnow created_date <=? max_age_days); [|reflexivity].
  rewrite <- str_take_substring. unfold bind; simpl. now rewrite Hh.
Qed.

Lemma falsy_source_is_unverified_witness :
  loop_body Demo2.odd Demo.utcnow Demo.api_key 7 (JObj Demo.recent) [] []
  = (inr [mk_finding (JStr "0xAAA") (JStr "0xa9059cbb") 5 (JStr "0xh1")],
     [Demo.lookup "0xAAA"]).
Proof.
  refine (falsy_source_is_unverified Demo2.odd Demo.utcnow Demo.api_key 7
    Demo.recent [("SourceCode", JNull); ("LastUpdated", JStr "2024-01-05")]
    (JStr "0xAAA") (JStr "0xh1") "0xa9059cbb0000000000000000"
    (mk_datetime 2024 1 5 0 0 0 0) [] [] _ _ _ _ _).
  - repeat split; try reflexivity; discriminate.
  - reflexivity.
  - eexists _, _. split; reflexivity.
  - reflexivity.
  - reflexivity.
Defined.

(** X17. The age of a contract is the number of days from the date it
    writes to the day of the run: for an unverified contract whose
    last-updated text writes the date [y]-[m]-[d], the round adds a finding
    when that difference of day numbers is at most [max_age_days], with
    that difference for age, and nothing otherwise. *)
Theorem age_is_day_difference
    (explorer : list request -> request -> reply) (utcnow : datetime)
    (api_key : json) (max_age_days : Z) (o info : list (string * json))
    (to h : json) (payload src created : string) (y m d : Z)
    (suspicious : list finding) (log : list request) :
  candidate o to payload ->
  dict_get "hash" o = Some h ->
  looked_up explorer log to api_key info ->
  field "SourceCode" info = JStr src ->
  str_strip src = "" ->
  field "LastUpdated" info = JStr created ->
  names_date created y m d ->
  valid_datetime utcnow = true ->
  let age_days := toordinal utcnow - ymd2ord y m d in
  loop_body explorer utcnow api_key max_age_days (JObj o) suspicious log
  = (inr (if age_days <=? max_age_days
          then suspicious ++ [mk_finding to (JStr (substring 0 10 payload))
                                age_days h]
          else suspicious)%list,
     (log ++ [lookup_request to api_key])%list).
Proof.
  intros Hc Hh Hl Hsrc Hstrip Hcreated Hn Hnow age_days.
  pose proof (strptime_complete _ _ _ _ Hn) as Hp.
  pose proof (age_of_midnight utcnow (mk_datetime y m d 0 0 0 0) Hnow
                eq_refl eq_refl eq_refl eq_refl) as Hage.
  change (toordinal (mk_datetime y m d 0 0 0 0)) with (ymd2ord y m d) in Hage.
  fold age_days in Hage.
  rewrite <- Hcreated in Hp.
  rewrite (loop_body_unverified explorer utcnow api_key max_age_days o info
             to h payload src _ suspicious log Hc Hh Hl Hsrc Hstrip Hp).
  now rewrite Hage, str_take_substring.
Qed.

Lemma age_is_day_difference_witness :
  loop_body Demo.explorer Demo2.evening Demo.api_key 7 (JObj Demo.old) [] []
  = (inr [], [Demo.lookup "0xBBB"]).
Proof.
  refine (age_is_day_difference Demo.explorer Demo2.evening Demo.api_key 7
    Demo.old (Demo.contract "  " "2023-12-11") (JStr "0xBBB") (JStr "0xh2")
    "0xa9059cbb0000000000000000" "  " "2023-12-11" 2023 12 11 [] []
    _ _ _ _ _ _ _ _).
  - repeat split; try reflexivity; discriminate.
  - reflexivity.
  - eexists _, _. split; reflexivity.
  - reflexivity.
  - reflexivity.
  - reflexivity.
  - split; [reflexivity|]. left.
  - reflexivity.
Defined.

(** ** The two fetchers *)

(** X10. [fetch_contract_info] makes one request, however it ends, and
    returns a value exactly when the explorer replies with a JSON object
    whose result is a list that is not empty (the value is its first
    element, the others are dropped) or a string that is not empty (the
    value is its first character). *)
Theorem fetch_contract_info_returns
    (explorer : list request -> request -> reply)
    (contract_address api_key : json) (log : list request) (x : json) :
  snd (fetch_contract_info explorer contract_address api_key log)
  = (log ++ [lookup_request contract_address api_key])%list /\
  (fst (fetch_contract_info explorer contract_address api_key log) = inr x <->
   exists body,
     explorer log (lookup_request contract_address api_key)
     = Reply (Some (JObj body)) /\
     ((exists others, dict_get "result" body = Some (JArr (x :: others))) \/
      (exists c s, dict_get "result" body = Some (JStr (String c s)) /\
                   x = JStr (String c "")))).
Proof.
  split; [apply fetch_contract_info_log|].
  split.
  - unfold fetch_contract_info, bind, requests_get.
    fold (lookup_request contract_address api_key).
    destruct (explorer log (lookup_request contract_address api_key))
      as [|[j|]]; try discriminate.
    destruct j as [| | | | |body]; try discriminate.
    simpl. intros H. exists body. split; [reflexivity|].
    destruct (dict_get "result" body) as [r|]; [|discriminate].
    destruct r as [| | |[|c s]|[|y others]|]; try discriminate;
      simpl in H; injection H as <-.
    + right. now exists c, s.
    + left. now exists others.
  - intros (body & Hr & [(others & Hres)|(c & s & Hres & ->)]);
      now rewrite (fetch_contract_info_reply _ _ _ _ _ Hr), Hres.
Qed.

Lemma fetch_contract_info_returns_witness :
  fst (fetch_contract_info Demo.explorer (JStr "0xAAA") Demo.api_key [])
  = inr (JObj (Demo.contract "" "2024-01-05")).
Proof.
  refine (proj2 (proj2 (fetch_contract_info_returns Demo.explorer
    (JStr "0xAAA") Demo.api_key [] (JObj (Demo.contract "" "2024-01-05"))))
    _).
  eexists. split; [reflexivity|]. left. eexists. reflexivity.
Defined.

(** X11. [fetch_transactions] makes one request, for the normal
    transactions of the address over the blocks 0 to 99999999, latest
    first; it fails exactly when there is no reply ([RequestException]),
    when the reply is not JSON ([JSONDecodeError]) or is JSON but not an
    object ([AttributeError]). *)
Theorem fetch_transactions_fails
    (explorer : list request -> request -> reply) (address api_key : json)
    (log : list request) (e : exn) :
  snd (fetch_transactions explorer address api_key log)
  = (log ++ [txlist_request address api_key])%list /\
  params (txlist_request address api_key)
  = [("module", JStr "account"); ("action", JStr "txlist");
     ("address", address); ("startblock", JNum 0);
     ("endblock", JNum 99999999); ("sort", JStr "desc");
     ("apikey", api_key)] /\
  (fst (fetch_transactions explorer address api_key log) = inl e <->
   (explorer log (txlist_request address api_key) = NoReply /\
    e = RequestException) \/
   (explorer log (txlist_request address api_key) = Reply None /\
    e = JSONDecodeError) \/
   (exists j, explorer log (txlist_request address api_key) = Reply (Some j) /\
              (forall body, j <> JObj body) /\ e = AttributeError)).
Proof.
  unfold fetch_transactions, bind, requests_get.
  fold (txlist_request address api_key).
  destruct (explorer log (txlist_request address api_key)) as [|[j|]].
  - repeat split.
    + intros H. left. split; [reflexivity|]. simpl in H. congruence.
    + intros [[_ ->]|[[H _]|(j & H & _)]]; [reflexivity|discriminate..].
  - destruct j as [| | | | |body]; simpl; (repeat split);
      try (intros H; right; right; eexists; split; [reflexivity|];
           split; [intros body; discriminate|congruence]);
      try (intros [[H _]|[[H _]|(j & H & Hno & ->)]];
           [discriminate|discriminate|reflexivity]).
    + discriminate.
    + intros [[H _]|[[H _]|(j & H & Hno & ->)]]; try discriminate.
      injection H as <-. now destruct (Hno body).
  - repeat split.
    + intros H. right. left. split; [reflexivity|]. simpl in H. congruence.
    + intros [[H _]|[[_ ->]|(j & H & _)]]; [discriminate|reflexivity|discriminate].
Qed.

Lemma fetch_transactions_fails_witness :
  fst (fetch_transactions Demo2.offline (JStr "0xWALLET") Demo.api_key [])
  = inl RequestException.
Proof.
  refine (proj2 (proj2 (proj2 (fetch_transactions_fails Demo2.offline
    (JStr "0xWALLET") Demo.api_key [] RequestException))) _).
  left. split; reflexivity.
Defined.

(** X12. Given something that is not a list, the classifier asks nothing:
    it returns no finding for an empty string or an empty object, and ends
    with [TypeError] for anything else (null, a number, a truth value, at
    the [for]; a string or an object that is not empty, at the subscript
    ["to"] of its first character or key). *)
Theorem not_a_list_of_transactions
    (explorer : list request -> request -> reply) (utcnow : datetime)
    (transactions api_key : json) (max_age_days : Z) (log : list request) :
  (forall txs, transactions <> JArr txs) ->
  detect_suspicious_contracts explorer utcnow transactions api_key
    max_age_days log
  = (match transactions with
     | JStr EmptyString => inr []
     | JObj [] => inr []
     | _ => inl TypeError
     end, log).
Proof.
  intros Hno.
  destruct transactions as [| | |[|c s]|txs|[|[k v] d]]; try reflexivity.
  now destruct (Hno txs).
Qed.

Lemma not_a_list_of_transactions_witness :
  detect_suspicious_contracts Demo.explorer Demo.utcnow
    (JStr "Invalid API Key") Demo.api_key 7 []
  = (inl TypeError, []).
Proof.
  refine (not_a_list_of_transactions Demo.explorer Demo.utcnow
    (JStr "Invalid API Key") Demo.api_key 7 [] _).
  intros txs. discriminate.
Defined.

(** ** The command line *)

Lemma fetch_transactions_log (explorer : list request -> request -> reply)
    (address api_key : json) (log : list request) :
  snd (fetch_transactions explorer address api_key log)
  = (log ++ [txlist_request address api_key])%list.
Proof.
  unfold fetch_transactions, bind, requests_get.
  fold (txlist_request address api_key).
  destruct (explorer log (txlist_request address api_key)) as [|[j|]];
    try reflexivity.
  simpl. now destruct (get j "result" (JArr [])).
Qed.

(** The log of the classifier on any value. *)
Lemma detect_log_any (explorer : list request -> request -> reply)
    (utcnow : datetime) (transactions api_key : json) (max_age_days : Z)
    (log : list request) :
  exists txs,
    snd (detect_suspicious_contracts explorer utcnow transactions api_key
           max_age_days log)
    = (log ++ lookups api_key txs)%list.
Proof.
  unfold detect_suspicious_contracts, bind.
  destruct (iter transactions) as [e|txs]; simpl.
  - exists []. simpl. now rewrite app_nil_r.
  - destruct (loop_log_any explorer utcnow api_key max_age_days txs [] log)
      as (k & _ & E).
    now exists (take k txs).
Qed.

(** The findings of the classifier on any value. *)
Lemma detect_findings_any (explorer : list request -> request -> reply)
    (utcnow : datetime) (transactions api_key : json) (max_age_days : Z)
    (log log' : list request) (findings : list finding) (n : nat) :
  detect_suspicious_contracts explorer utcnow transactions api_key
    max_age_days log = (inr findings, log') ->
  len transactions = inr n ->
  (length findings <= n)%nat /\
  Forall (fun f => f_age_days f <= max_age_days) findings.
Proof.
  intros H L.
  destruct transactions as [| | |[|c s]|txs|[|[k v] d]]; try discriminate.
  - injection H as <- _. split; [simpl; lia|constructor].
  - simpl in L. injection L as <-. rewrite detect_list in H. split.
    + apply loop_shares in H as (per_tx & -> & Hall).
      now apply shares_length.
    + apply loop_adds in H as (fs & -> & Hall). simpl.
      eapply Forall_impl; [exact Hall|]. now intros f [Ha _].
  - injection H as <- _. split; [simpl; lia|constructor].
Qed.

(** X18. When the script ends normally, the transactions were fetched,
    counted and classified without exception, and it has printed the
    address, the count [len(txs)] of what the fetch returned, and then, for
    the findings the classifier returned, either the line that nothing was
    found, when there is none, or the alert followed by one line per
    finding, in order; there are no more findings than the count, and the
    age of each is at most [--age]. *)
Theorem main_report
    (explorer : list request -> request -> reply) (utcnow : datetime)
    (address api_key : json) (age : Z) (log log' : list request)
    (out : list line) :
  main explorer utcnow address api_key age log = (inr tt, out, log') ->
  exists txs n findings l1,
    fetch_transactions explorer address api_key log = (inr txs, l1) /\
    len txs = inr n /\
    detect_suspicious_contracts explorer utcnow txs api_key age l1
    = (inr findings, log') /\
    out = ([Analysing address; Found n]
           ++ match findings with
              | [] => [NothingFound]
              | _ :: _ => Alert :: map Entry findings
              end)%list /\
    (length findings <= n)%nat /\
    Forall (fun f => f_age_days f <= age) findings.
Proof.
  unfold main.
  destruct (fetch_transactions explorer address api_key log)
    as [[e|txs] l1]; [discriminate|].
  destruct (len txs) as [e|n] eqn:L; [discriminate|].
  destruct (detect_suspicious_contracts explorer utcnow txs api_key age l1)
    as [[e|fs] l2] eqn:D; [discriminate|].
  intros H. injection H as <- <-.
  exists txs, n, fs, l1.
  split; [reflexivity|]. split; [exact L|]. split; [exact D|].
  split; [reflexivity|].
  now apply (detect_findings_any _ _ _ _ _ _ _ _ _ D L).
Qed.

Lemma main_report_witness :
  exists txs n findings l1,
    fetch_transactions Demo.explorer (JStr "0xWALLET") Demo.api_key []
    = (inr txs, l1) /\
    len txs = inr n /\
    detect_suspicious_contracts Demo.explorer Demo.utcnow txs Demo.api_key 7 l1
    = (inr findings,
       [txlist_request (JStr "0xWALLET") Demo.api_key;
        Demo.lookup "0xAAA"; Demo.lookup "0xBBB"; Demo.lookup "0xCCC";
        Demo.lookup "0xAAA"]) /\
    [Analysing (JStr "0xWALLET"); Found 5; Alert;
     Entry (mk_finding (JStr "0xAAA") (JStr "0xa9059cbb") 5 (JStr "0xh1"));
     Entry (mk_finding (JStr "0xAAA") (JStr "0xa905") 5 (JStr "0xh8"))]
    = ([Analysing (JStr "0xWALLET"); Found n]
       ++ match findings with
          | [] => [NothingFound]
          | _ :: _ => Alert :: map Entry findings
          end)%list /\
    (length findings <= n)%nat /\
    Forall (fun f => f_age_days f <= 7) findings.
Proof.
  refine (main_report Demo.explorer Demo.utcnow (JStr "0xWALLET") Demo.api_key
    7 [] _ _ _).
  reflexivity.
Defined.

(** X19. When the explorer reports an error as a message in the result
    field (a wrong key, a rate limit), the script prints the length of the
    message as the number of transactions found and then ends with
    [TypeError], having asked for nothing but the transactions. *)
Theorem main_on_error_message
    (explorer : list request -> request -> reply) (utcnow : datetime)
    (address api_key : json) (age : Z) (log : list request)
    (body : list (string * json)) (message : string) :
  explorer log (txlist_request address api_key) = Reply (Some (JObj body)) ->
  dict_get "result" body = Some (JStr message) ->
  message <> "" ->
  main explorer utcnow address api_key age log
  = (inl TypeError,
     [Analysing address; Found (String.length message)],
     (log ++ [txlist_request address api_key])%list).
Proof.
  intros Hr Hres Hne. unfold main.
  assert (E : fetch_transactions explorer address api_key log
              = (inr (JStr message),
                 (log ++ [txlist_request address api_key])%list)).
  { unfold fetch_transactions, bind, requests_get.
    fold (txlist_request address api_key). rewrite Hr. simpl.
    now rewrite Hres. }
  rewrite E. simpl len. cbv iota.
  destruct message as [|c s]; [now destruct Hne|]. reflexivity.
Qed.

Lemma main_on_error_message_witness :
  main Demo.explorer Demo.utcnow (JStr "0xWALLET") (JStr "WRONG") 7 []
  = (inl TypeError, [Analysing (JStr "0xWALLET"); Found 15],
     [txlist_request (JStr "0xWALLET") (JStr "WRONG")]).
Proof.
  refine (main_on_error_message Demo.explorer Demo.utcnow (JStr "0xWALLET")
    (JStr "WRONG") 7 [] (Demo.answer "0" "NOTOK" (JStr "Invalid API Key"))
    "Invalid API Key" _ _ _).
  - reflexivity.
  - reflexivity.
  - discriminate.
Defined.

(** X20. Findings are printed only after the whole classification:
    when the fetch returns a list and one of its transactions raises in
    the classifier, the script ends with that exception having printed the
    address and the count only, whatever findings the transactions before
    it had produced. *)
Theorem findings_lost_on_failure
    (explorer : list request -> request -> reply) (utcnow : datetime)
    (address api_key : json) (age : Z) (pre post : list json) (tx : json)
    (found : list finding) (e : exn) (log l1 l2 l3 : list request) :
  fetch_transactions explorer address api_key log
  = (inr (JArr (pre ++ tx :: post)), l1) ->
  detect_suspicious_contracts explorer utcnow (JArr pre) api_key age l1
  = (inr found, l2) ->
  loop_body explorer utcnow api_key age tx found l2 = (inl e, l3) ->
  main explorer utcnow address api_key age log
  = (inl e,
     [Analysing address; Found (length (pre ++ tx :: post))],
     l3).
Proof.
  intros Hf Hpre Htx. unfold main. rewrite Hf. simpl len. cbv iota.
  rewrite detect_list in Hpre.
  rewrite detect_list, loop_app. unfold bind. rewrite Hpre.
  simpl loop. unfold bind. now rewrite Htx.
Qed.

Lemma findings_lost_on_failure_witness :
  main Demo2.broken Demo.utcnow (JStr "0xWALLET") Demo.api_key 7 []
  = (inl IndexError, [Analysing (JStr "0xWALLET"); Found 3],
     [txlist_request (JStr "0xWALLET") Demo.api_key;
      Demo.lookup "0xAAA"; Demo.lookup "0x000"]).
Proof.
  refine (findings_lost_on_failure Demo2.broken Demo.utcnow (JStr "0xWALLET")
    Demo.api_key 7 [JObj Demo.recent] [JObj Demo.recent] (JObj Demo.unknown)
    [mk_finding (JStr "0xAAA") (JStr "0xa9059cbb") 5 (JStr "0xh1")]
    IndexError []
    [txlist_request (JStr "0xWALLET") Demo.api_key]
    [txlist_request (JStr "0xWALLET") Demo.api_key; Demo.lookup "0xAAA"]
    [txlist_request (JStr "0xWALLET") Demo.api_key;
     Demo.lookup "0xAAA"; Demo.lookup "0x000"] _ _ _); reflexivity.
Defined.

(** X21. However the script ends, its first request is the one for the
    transactions of the address, and every later one is a lookup of source
    code with the same key. *)
Theorem main_requests
    (explorer : list request -> request -> reply) (utcnow : datetime)
    (address api_key : json) (age : Z) (log : list request) :
  exists rest,
    snd (main explorer utcnow address api_key age log)
    = (log ++ txlist_request address api_key :: rest)%list /\
    Forall (fun rq => url rq = ETHERSCAN_API_URL /\
                      field "action" (params rq) = JStr "getsourcecode" /\
                      field "apikey" (params rq) = api_key) rest.
Proof.
  unfold main.
  pose proof (fetch_transactions_log explorer address api_key log) as Hl.
  destruct (fetch_transactions explorer address api_key log) as [[e|txs] l1];
    simpl in Hl; subst l1.
  { exists []. split; [reflexivity|constructor]. }
  destruct (len txs) as [e|n].
  { exists []. split; [reflexivity|constructor]. }
  destruct (detect_log_any explorer utcnow txs api_key age
              (log ++ [txlist_request address api_key])%list) as (l & E).
  exists (lookups api_key l). split; [|apply lookups_shape].
  destruct (detect_suspicious_contracts explorer utcnow txs api_key age
              (log ++ [txlist_request address api_key])%list)
    as [[e|fs] l2]; simpl in E; subst l2; simpl;
    now rewrite <- app_assoc.
Qed.

(** ** The date of a contract *)

(** X22. On texts of code points below 256, where the decimal digits are
    the characters 0 to 9, the date parse reads exactly the texts that
    write an existing date (year in four digits, month and day in two
    digits or in one, the day also as a blank and a digit), as that date
    at midnight; so every existing date written YYYY-MM-DD is read back as
    itself.  Texts with characters beyond code point 255 are not
    covered. *)
Theorem strptime_reads_written_dates (s : string) (t : datetime)
    (y m d : Z) :
  (strptime (JStr s) = inr t <->
   names_date s (year t) (month t) (day t) /\
   hour t = 0 /\ minute t = 0 /\ second t = 0 /\ microsecond t = 0) /\
  (valid_date y m d = true ->
   is_YYYY_MM_DD (isoformat y m d) = true /\
   strptime (JStr (isoformat y m d)) = inr (mk_datetime y m d 0 0 0 0)).
Proof.
  split; [split|].
  - intros H. split; [now apply strptime_sound|].
    now destruct (strptime_inr _ _ H) as (_ & H1 & H2 & H3 & H4).
  - intros (Hn & H1 & H2 & H3 & H4).
    rewrite (strptime_complete _ _ _ _ Hn).
    destruct t; simpl in *. now subst.
  - intros V. split; [now apply isoformat_is_YYYY_MM_DD|].
    apply strptime_complete. now apply isoformat_names_date.
Qed.

Lemma strptime_reads_written_dates_witness :
  is_YYYY_MM_DD (isoformat 2024 2 29) = true /\
  strptime (JStr (isoformat 2024 2 29)) = inr (mk_datetime 2024 2 29 0 0 0 0).
Proof.
  refine (proj2 (strptime_reads_written_dates "2024-2-29"
    (mk_datetime 2024 2 29 0 0 0 0) 2024 2 29) _).
  reflexivity.
Defined.

(** ** What decides a round *)

(** X23. A contract counts as unverified exactly when its source code is
    made of white space only (the empty string included): for a candidate
    with a hash and a date that parses, the round adds a finding when the
    source is white space only and the age is within the threshold, and
    nothing otherwise. *)
Theorem white_space_source_is_unverified
    (explorer : list request -> request -> reply) (utcnow : datetime)
    (api_key : json) (max_age_days : Z) (o info : list (string * json))
    (to h : json) (payload src : string) (created_date : datetime)
    (suspicious : list finding) (log : list request) :
  candidate o to payload ->
  dict_get "hash" o = Some h ->
  looked_up explorer log to api_key info ->
  field "SourceCode" info = JStr src ->
  strptime (field "LastUpdated" info) = inr created_date ->
  loop_body explorer utcnow api_key max_age_days (JObj o) suspicious log
  = (inr (if forallb is_space (list_ascii_of_string src)
             && (age_of utcnow created_date <=? max_age_days)
          then suspicious ++ [mk_finding to (JStr (substring 0 10 payload))
                                (age_of utcnow created_date) h]
          else suspicious)%list,
     (log ++ [lookup_request to api_key])%list).
Proof.
  intros Hc Hh Hl Hsrc Hdate.
  destruct (forallb is_space (list_ascii_of_string src)) eqn:Hsp.
  - apply str_strip_empty in Hsp.
    rewrite (loop_body_unverified explorer utcnow api_key max_age_days o info
               to h payload src _ suspicious log Hc Hh Hl Hsrc Hsp Hdate).
    now rewrite str_take_substring.
  - apply (loop_body_verified explorer utcnow api_key max_age_days o info to
             payload src suspicious log Hc Hl Hsrc).
    intros E. apply str_strip_empty in E. congruence.
Qed.

Lemma white_space_source_is_unverified_witness :
  loop_body Demo.explorer Demo.utcnow Demo.api_key 30 (JObj Demo.old) [] []
  = (inr [mk_finding (JStr "0xBBB") (JStr "0xa9059cbb") 30 (JStr "0xh2")],
     [Demo.lookup "0xBBB"]).
Proof.
  refine (white_space_source_is_unverified Demo.explorer Demo.utcnow
    Demo.api_key 30 Demo.old (Demo.contract "  " "2023-12-11") (JStr "0xBBB")
    (JStr "0xh2") "0xa9059cbb0000000000000000" "  "
    (mk_datetime 2023 12 11 0 0 0 0) [] [] _ _ _ _ _).
  - repeat split; try reflexivity; discriminate.
  - reflexivity.
  - eexists _, _. split; reflexivity.
  - reflexivity.
  - reflexivity.
Defined.

Lemma loop_body_explorers (explorer1 explorer2 : list request -> request -> reply)
    (utcnow : datetime) (api_key : json) (max_age_days : Z) (tx : json)
    (suspicious : list finding) (log : list request) :
  (forall l to, explorer1 l (lookup_request to api_key)
                = explorer2 l (lookup_request to api_key)) ->
  loop_body explorer1 utcnow api_key max_age_days tx suspicious log
  = loop_body explorer2 utcnow api_key max_age_days tx suspicious log.
Proof.
  intros Hsame.
  assert (Hf : forall to l, fetch_contract_info explorer1 to api_key l
                            = fetch_contract_info explorer2 to api_key l).
  { intros to l. unfold fetch_contract_info, bind, requests_get.
    fold (lookup_request to api_key). now rewrite Hsame. }
  unfold loop_body, bind.
  destruct (lift (subscript tx "to") log) as [[e|to] l1]; [reflexivity|].
  destruct (lift (get tx "input" (JStr "")) l1) as [[e|input_data] l2];
    [reflexivity|].
  destruct (negb (truthy to) || negb (truthy input_data)
            || eq_str input_data "0x"); [reflexivity|].
  now rewrite Hf.
Qed.

(** X24. The classifier depends on the explorer through the lookups of
    source code only: two explorers that answer those alike give the same
    outcome, findings and log. *)
Theorem only_lookups_matter
    (explorer1 explorer2 : list request -> request -> reply)
    (utcnow : datetime) (transactions api_key : json) (max_age_days : Z)
    (log : list request) :
  (forall l to, explorer1 l (lookup_request to api_key)
                = explorer2 l (lookup_request to api_key)) ->
  detect_suspicious_contracts explorer1 utcnow transactions api_key
    max_age_days log
  = detect_suspicious_contracts explorer2 utcnow transactions api_key
      max_age_days log.
Proof.
  intros Hsame. unfold detect_suspicious_contracts, bind.
  destruct (lift (iter transactions) log) as [[e|txs] l]; [reflexivity|].
  generalize (@nil finding) as suspicious. revert l.
  induction txs as [|tx txs IH]; intros l suspicious; [reflexivity|].
  simpl. unfold bind.
  rewrite (loop_body_explorers explorer1 explorer2 _ _ _ _ _ _ Hsame).
  destruct (loop_body explorer2 utcnow api_key max_age_days tx suspicious l)
    as [[e|s] l']; [reflexivity|apply IH].
Qed.

Lemma only_lookups_matter_witness :
  detect_suspicious_contracts Demo.explorer Demo.utcnow (JArr Demo.history)
    Demo.api_key 7 []
  = detect_suspicious_contracts
      (fun l rq => if eq_str (field "action" (params rq)) "txlist"
                   then NoReply else Demo.explorer l rq)
      Demo.utcnow (JArr Demo.history) Demo.api_key 7 [].
Proof.
  refine (only_lookups_matter Demo.explorer
    (fun l rq => if eq_str (field "action" (params rq)) "txlist"
                 then NoReply else Demo.explorer l rq)
    Demo.utcnow (JArr Demo.history) Demo.api_key 7 [] _).
  intros l to. reflexivity.
Defined.
